(** * Technician hours tracker: the normalisation, aggregation and roster
    reconciliation pipeline of [Hours_Process_app.py], embedded in Rocq.

    Python floats are IEEE binary64 values, modelled by Rocq's primitive
    floats; Python integers are unbounded, modelled by [Z].  A Python
    [str] is modelled by a Rocq string when all its characters are ASCII
    (code points below 128); texts with other characters are outside the
    model.  Library routines the script calls (pandas' text parsers, its
    reductions and sort, matplotlib's colormap) are interfaces: type
    classes whose methods the definitions call, exactly where the script
    calls them.  For the colormap the file also gives the instance that
    matplotlib implements, its table of 256 entries. *)

From Stdlib Require Import ZArith Uint63 Floats Ascii String Lia.
From stdpp Require Import base decidable option list list_numbers sorting strings pretty.

Local Open Scope Z_scope.
Set Warnings "-inexact-float".

(** ** Python values *)

(** [float(n)] for a Python integer rounds to the nearest double (ties to
    even).  [float_of_Z] is that rounding; it yields an infinity where the
    rounded value leaves the double range. *)
Definition float_of_Z (z : Z) : float :=
  SF2Prim (binary_normalize prec emax z 0 false).

(** Exceptions the modelled code can meet. *)
Inductive exn : Type :=
| OverflowError            (* float(n): int too large to convert to float *)
| ReadError.               (* pd.read_excel could not read the upload *)

(** Outcome of a call that may raise. *)
Inductive result (A : Type) : Type :=
| Ok (a : A)
| Raise (e : exn).
Arguments Ok {A} a.
Arguments Raise {A} e.

Definition bind {A B : Type} (r : result A) (k : A -> result B) : result B :=
  match r with
  | Ok a => k a
  | Raise e => Raise e
  end.

Definition is_ok {A : Type} (r : result A) : bool :=
  match r with
  | Ok _ => true
  | Raise _ => false
  end.

(** Python's [float(n)]: [OverflowError] where the rounded value is not a
    finite double. *)
Definition float_of_int (z : Z) : result float :=
  let f := float_of_Z z in
  if PrimFloat.is_infinity f then Raise OverflowError else Ok f.

(** The [hour], [minute] and [second] attributes of a [pd.Timestamp],
    [datetime.datetime] or [datetime.time]. *)
Record clock : Type := Clock { hour : Z; minute : Z; second : Z }.

(** The ranges Python's datetime types keep their fields in. *)
Definition clock_ok (c : clock) : Prop :=
  (0 <= hour c < 24) /\ (0 <= minute c < 60) /\ (0 <= second c < 60).

(** A spreadsheet cell as pandas hands it to the script.  A [pd.Timedelta]
    is represented by the float its [total_seconds()] returns, the only
    thing the script asks of it. *)
Inductive value : Type :=
| VNull                              (* None, NaT, pd.NA *)
| VTimedelta (total_seconds : float) (* pd.Timedelta *)
| VTimestamp (c : clock)             (* pd.Timestamp, datetime.datetime *)
| VTime (c : clock)                  (* datetime.time *)
| VBool (b : bool)                   (* bool, a subclass of int *)
| VInt (z : Z)                       (* int, np.integer *)
| VFloat (f : float)                 (* float, np.floating *)
| VStr (s : string).                 (* str *)

(** [pd.isnull]: the missing markers, among them the float NaN. *)
Definition isnull (t : value) : bool :=
  match t with
  | VNull => true
  | VFloat f => PrimFloat.is_nan f
  | _ => false
  end.

(** What [pd.to_datetime] returns when it does not raise. *)
Inductive parsed_datetime : Type :=
| NaT
| Timestamp (c : clock).

(** The text parsers [time_to_hours] falls back on; [None] stands for a
    raised exception. *)
Class TextParsers : Type := {
  (** [pd.to_timedelta(s).total_seconds()]; NaN when the parse gives NaT *)
  to_timedelta : string -> option float;
  (** [pd.to_datetime(s)] *)
  to_datetime : string -> option parsed_datetime;
  (** [float(s)] *)
  float_of_str : string -> option float
}.

(** ** Helper functions (lines 30-63) *)

Definition nan : float := (0 / 0)%float.

(** [t.hour + t.minute / 60.0 + t.second / 3600.0] *)
Definition hour_of_day (c : clock) : float :=
  (float_of_Z (hour c) + float_of_Z (minute c) / 60
   + float_of_Z (second c) / 3600)%float.

(** The same expression on the result of [pd.to_datetime]; the fields of
    NaT are NaN. *)
Definition hour_of_parsed (dt : parsed_datetime) : float :=
  match dt with
  | NaT => (nan + nan / 60 + nan / 3600)%float
  | Timestamp c => hour_of_day c
  end.

(** [val * 24.0 if 0 <= val <= 1 else val] *)
Definition day_fraction (val : float) : float :=
  if PrimFloat.leb 0 val && PrimFloat.leb val 1 then (val * 24)%float else val.

(** The three [try] blocks of lines 39-52, each falling through to the
    next when its parser raises. *)
Definition text_to_hours {parsers : TextParsers} (s : string) : float :=
  match to_timedelta s with
  | Some secs => (secs / 3600)%float
  | None =>
    match to_datetime s with
    | Some dt => hour_of_parsed dt
    | None =>
      match float_of_str s with
      | Some f => f
      | None => 0%float
      end
    end
  end.

(** [time_to_hours(t)], lines 30-52. *)
Definition time_to_hours {parsers : TextParsers} (t : value) : result float :=
  if isnull t then Ok 0%float
  else
    match t with
    | VNull => Ok 0%float
    | VTimedelta secs => Ok (secs / 3600)%float
    | VTimestamp c => Ok (hour_of_day c)
    | VTime c => Ok (hour_of_day c)
    | VBool b => bind (float_of_int (if b then 1 else 0)) (fun val => Ok (day_fraction val))
    | VInt z => bind (float_of_int z) (fun val => Ok (day_fraction val))
    | VFloat f => Ok (day_fraction f)
    | VStr s => Ok (text_to_hours s)
    end.

(** The float a numeric cell stands for: what [float(t)] returns on a
    [bool], [int] or [float] cell, where it returns. *)
Definition float_value (t : value) : option float :=
  match t with
  | VBool b => Some (if b then 1 else 0)%float
  | VInt z =>
    if PrimFloat.is_infinity (float_of_Z z) then None else Some (float_of_Z z)
  | VFloat f => Some f
  | _ => None
  end.

(** Whether a clock reading gives an hour of day from 0 up to, not
    including, 24. *)
Definition clock_in_range (h m s : Z) : bool :=
  PrimFloat.leb 0 (hour_of_day (Clock h m s))
  && PrimFloat.ltb (hour_of_day (Clock h m s)) 24.

(** The same for a function of three integers over all readings of a
    day. *)
Definition all_of_day (f : Z -> Z -> Z -> bool) : bool :=
  forallb (fun h => forallb (fun m => forallb (f h m) (seqZ 0 60)) (seqZ 0 60))
          (seqZ 0 24).

(** The maximum of two numbers as Python's builtin [max(a, b)] finds it:
    the first argument stays unless the second is strictly greater. *)
Definition py_max (a b : float) : float :=
  if PrimFloat.ltb a b then b else a.

(** An RGBA colour as matplotlib returns it. *)
Record rgba : Type := RGBA { red : float; green : float; blue : float; alpha : float }.

(** A bar colour: a hex string or an RGBA tuple. *)
Inductive color : Type :=
| Hex (code : string)
| Mapped (c : rgba).

(** The argument of a colormap call: matplotlib treats a Python [int] as
    an index into its lookup table and a float as a position in [0, 1]. *)
Inductive norm_arg : Type :=
| NInt (i : Z)
| NFloat (p : float).

(** [mcolors.LinearSegmentedColormap.from_list("", names)], applied. *)
Class Colormaps : Type := {
  from_list : list string -> norm_arg -> rgba
}.

(** [get_bar_color(hours, max_hours)], lines 54-63. *)
Definition get_bar_color {cmaps : Colormaps} (hours max_hours : float) : color :=
  let max_for_norm := py_max max_hours 20 in
  if PrimFloat.ltb hours 20 then Hex "#FF0000"
  else
    let norm_val :=
      if PrimFloat.ltb 0 (max_for_norm - 20)
      then NFloat ((hours - 20) / (max_for_norm - 20))
      else NInt 0 in
    Mapped (from_list ["orange"; "yellow"; "green"]%string norm_val).

(** ** Configuration (lines 15-25) *)

(** [str.upper] on an ASCII text: the letters a to z are moved to A to Z
    and nothing else changes.  Python also upper-cases letters outside
    ASCII; such texts are outside the model, and on their characters this
    function is not [str.upper]. *)
Definition upper_ascii (c : ascii) : ascii :=
  let n := N_of_ascii c in
  if ((97 <=? n) && (n <=? 122))%N then ascii_of_N (n - 32) else c.

Fixpoint upper (s : string) : string :=
  match s with
  | EmptyString => EmptyString
  | String c s' => String (upper_ascii c) (upper s')
  end.

(** The ASCII characters that [str.strip()] removes: tab to carriage
    return (9-13), the four separators 28-31 and the space.  Python also
    removes white space outside ASCII, such as the no-break space; texts
    with such characters are outside the model. *)
Definition is_space (c : ascii) : bool :=
  let n := N_of_ascii c in
  (((9 <=? n) && (n <=? 13)) || ((28 <=? n) && (n <=? 32)))%N.

Fixpoint lstrip (s : string) : string :=
  match s with
  | EmptyString => EmptyString
  | String c s' => if is_space c then lstrip s' else s
  end.

Fixpoint rstrip (s : string) : string :=
  match s with
  | EmptyString => EmptyString
  | String c s' =>
    match rstrip s' with
    | EmptyString => if is_space c then EmptyString else String c EmptyString
    | r => String c r
    end
  end.

Definition strip (s : string) : string := lstrip (rstrip s).

(** Python's [sorted(l, key=key)]: a stable sort that compares keys with
    [<] only.  An element goes in front of the first element of the sorted
    rest whose key is not smaller than its own. *)
Fixpoint insert_by_key {A : Type} (key : A -> string) (x : A) (l : list A) : list A :=
  match l with
  | [] => [x]
  | y :: l' =>
    if String.ltb (key y) (key x) then y :: insert_by_key key x l'
    else x :: y :: l'
  end.

Definition sorted {A : Type} (key : A -> string) (l : list A) : list A :=
  foldr (insert_by_key key) [] l.

Definition MANUAL_TECHS_listed : list string :=
  [ "SRIJAN"; "EPELI_23"; "AMITESHWAR_22"; "KAUSHIK_23"; "RATHNAYAKA";
    "NITUN_22"; "ROMAN_01"; "NIKLESH_25"; "SUMIT_22"; "NAND_22";
    "VILIAME"; "ANISH"; "PAUL_22"; "SAILESH_22"; "KAPIL_25";
    "NITENDRA_25"; "GOSAI_25"; "JOE_22"; "RAHUL_24"; "ROHIT" ]%string.

(** [MANUAL_TECHS = sorted(MANUAL_TECHS, key=str.upper)] *)
Definition MANUAL_TECHS : list string := sorted upper MANUAL_TECHS_listed.

Definition TECHNICIAN_COL : string := "Technician".
Definition WORK_ORDER_COL : string := "Work order for labor reporting".
Definition HOURS_COL : string := "Labor reporting time (duration)".

(** ** Frames *)

(** A row of [grouped] and of [summary]: the three output columns. *)
Record agg_row : Type := AggRow {
  Technician : string;
  Work_Orders_Completed : nat;
  Total_Hours_Worked : float
}.

(** A row of the left merge before the fills: a roster technician without
    a match has missing values in both data columns (a missing float is
    NaN). *)
Record merged_row : Type := MergedRow {
  merged_Technician : string;
  merged_Work_Orders : option nat;
  merged_Total_Hours : float
}.

(** The pandas operations the main script calls on its frames. *)
Class Pandas : Type := {
  (** [str(v)], what [astype(str)] makes of a cell that is not text *)
  str_of : value -> string;
  (** the ["sum"] aggregation of one group's hours, in row order *)
  series_sum : list float -> float;
  (** [sort_values(by="Total_Hours_Worked", ascending=False,
      ignore_index=True)], with pandas' default sort kind *)
  sort_values : list agg_row -> list agg_row
}.

(** [np.rint] on a double: round to the nearest integer, ties to even,
    keeping the sign (so -0.3 gives -0.0).  A finite double is
    [m * 2^e] up to sign; with [e < 0] the integer part of [m / 2^-e] is
    rounded up when the remainder is above one half, or equal to one half
    with the integer part odd.  Other doubles are integers, infinities or
    NaN and stay as they are. *)
Definition rint (x : float) : float :=
  match Prim2SF x with
  | S754_finite s m e =>
    if e <? 0 then
      let q := Z.shiftr (Zpos m) (- e) in
      let r := Zpos m - Z.shiftl q (- e) in
      let half := Z.shiftl 1 (- e - 1) in
      let n := if (half <? r) || ((r =? half) && Z.odd q) then q + 1 else q in
      let a := PrimFloat.of_uint63 (Uint63.of_Z n) in
      if s then (- a)%float else a
    else x
  | _ => x
  end.

(** [Series.round(2)], which numpy computes as [rint(x * 100) / 100]. *)
Definition round2 (x : float) : float := (rint (x * 100) / 100)%float.

(** [fillna(d)] on one float cell. *)
Definition fillna (d x : float) : float :=
  if PrimFloat.is_nan x then d else x.

(** [manual_df.merge(grouped, on=TECHNICIAN_COL, how="left")]: each left
    row, in order, paired with every right row of the same key, or with
    missing values when there is none. *)
Definition merge_left (manual : list string) (grouped : list agg_row) : list merged_row :=
  flat_map
    (fun t =>
       match filter (fun g => Technician g = t) grouped with
       | [] => [MergedRow t None nan]
       | matches =>
         map (fun g => MergedRow t (Some (Work_Orders_Completed g)) (Total_Hours_Worked g))
             matches
       end)
    manual.

(** Lines 124-125: [fillna(0).astype(int)] and [fillna(0.0).round(2)]. *)
Definition fill_row (m : merged_row) : agg_row :=
  AggRow (merged_Technician m)
         (default 0%nat (merged_Work_Orders m))
         (round2 (fillna 0 (merged_Total_Hours m))).

(** [summary] as lines 122-125 leave it. *)
Definition summary (manual : list string) (grouped : list agg_row) : list agg_row :=
  map fill_row (merge_left manual grouped).

(** [summary] after lines 127-128. *)
Definition summary_sorted {pandas : Pandas} (sort_by_hours : bool)
    (manual : list string) (grouped : list agg_row) : list agg_row :=
  if sort_by_hours then sort_values (summary manual grouped)
  else summary manual grouped.

(** ** Ingestion and aggregation (lines 87-119) *)

Section Pipeline.

(** Work-order identifiers, compared as pandas compares cell values. *)
Context {W : Type} {W_eq_dec : EqDecision W}.
Context {parsers : TextParsers} {pandas : Pandas}.

(** One row of an uploaded sheet: the three cells the script reads.  A
    missing work order is [None]. *)
Record raw_row : Type := RawRow {
  raw_technician : value;
  raw_work_order : option W;
  raw_duration : value
}.

(** A frame read from a sheet: its header and its rows.  The cells of a
    column that the header lacks are never read. *)
Record dataframe : Type := DataFrame {
  columns : list string;
  rows : list raw_row
}.

(** An upload: its file name and what [pd.read_excel] makes of it. *)
Record uploaded_file : Type := Upload {
  name : string;
  read_excel : result dataframe
}.

(** A row of the frames collected in [all_data]. *)
Record clean_row : Type := CleanRow {
  technician : string;
  work_order : option W;
  hours : float
}.

(** What the script shows for a file it did not ingest. *)
Inductive notice : Type :=
| Warning (file : string) (missing : list string)  (* st.warning, line 100 *)
| Error (file : string) (e : exn).                 (* st.error, line 110 *)

(** Line 98 *)
Definition missing_cols (df : dataframe) : list string :=
  filter (fun col => col ∉ columns df) [TECHNICIAN_COL; WORK_ORDER_COL; HOURS_COL].

(** Line 104: [df.dropna(subset=[TECHNICIAN_COL, HOURS_COL])] *)
Definition dropna (rs : list raw_row) : list raw_row :=
  filter (fun r => isnull (raw_technician r) = false /\ isnull (raw_duration r) = false) rs.

(** [astype(str)] on a technician cell. *)
Definition astype_str (v : value) : string :=
  match v with
  | VStr s => s
  | _ => str_of v
  end.

(** Lines 105-107 on one row. *)
Definition clean (r : raw_row) : result clean_row :=
  bind (time_to_hours (raw_duration r))
       (fun h => Ok (CleanRow (upper (strip (astype_str (raw_technician r))))
                              (raw_work_order r) h)).

(** A column-wise [apply]: the first exception ends it. *)
Fixpoint apply_rows {A B : Type} (f : A -> result B) (l : list A) : result (list B) :=
  match l with
  | [] => Ok []
  | x :: l' => bind (f x) (fun y => bind (apply_rows f l') (fun ys => Ok (y :: ys)))
  end.

(** The state of the loop of lines 88-110: the frames collected so far and
    the notices shown so far. *)
Record loop_state : Type := LoopState {
  all_data : list (list clean_row);
  notices : list notice
}.

(** One iteration of the loop, lines 90-110. *)
Definition process_file (st : loop_state) (f : uploaded_file) : loop_state :=
  match read_excel f with
  | Raise e => LoopState (all_data st) (notices st ++ [Error (name f) e])
  | Ok df =>
    match missing_cols df with
    | [] =>
      match apply_rows clean (dropna (rows df)) with
      | Ok rs => LoopState (all_data st ++ [rs]) (notices st)
      | Raise e => LoopState (all_data st) (notices st ++ [Error (name f) e])
      end
    | missing => LoopState (all_data st) (notices st ++ [Warning (name f) missing])
    end
  end.

Definition process_files (uploaded_files : list uploaded_file) : loop_state :=
  fold_left process_file uploaded_files (LoopState [] []).

(** The rows of one technician, in frame order. *)
Definition group (t : string) (df : list clean_row) : list clean_row :=
  filter (fun r => technician r = t) df.

(** The ["nunique"] aggregation: the number of distinct values, missing
    ones not counted. *)
Definition nunique (col : list (option W)) : nat :=
  length (remove_dups (omap id col)).

(** Lines 116-119: [groupby(TECHNICIAN_COL).agg(...).reset_index()], one
    row per technician, keys in sorted order. *)
Definition grouped (combined_df : list clean_row) : list agg_row :=
  map (fun t =>
         AggRow t (nunique (map work_order (group t combined_df)))
                  (series_sum (map hours (group t combined_df))))
      (sorted id (remove_dups (map technician combined_df))).

(** What a run shows. *)
Inductive outcome : Type :=
| Report (table : list agg_row) (shown : list notice)
| NoValidData (shown : list notice)   (* line 209 *)
| AwaitUpload.                        (* line 211 *)

(** The main logic, lines 87-128 and 208-211. *)
Definition run (roster : list string) (sort_by_hours : bool)
    (uploaded_files : list uploaded_file) : outcome :=
  match uploaded_files with
  | [] => AwaitUpload
  | _ =>
    let st := process_files uploaded_files in
    match all_data st with
    | [] => NoValidData (notices st)
    | frames =>
      Report (summary_sorted sort_by_hours roster (grouped (concat frames)))
             (notices st)
    end
  end.

End Pipeline.

(** ** What the script relies on from [sort_values]

    pandas sorts with its default kind, quicksort, which is not a stable
    sort.  The result holds the rows of the input, and no row is followed
    by one with more hours. *)
Definition rearranges (srt : list agg_row -> list agg_row) : Prop :=
  forall l, srt l ≡ₚ l.

Definition not_below (a b : agg_row) : Prop :=
  PrimFloat.ltb (Total_Hours_Worked a) (Total_Hours_Worked b) = false.

Definition sorts_descending (srt : list agg_row -> list agg_row) : Prop :=
  forall l, srt l ≡ₚ l /\ Sorted not_below (srt l).

(** Descending order of hours, for rows whose hours are numbers. *)
Definition hours_ge (a b : agg_row) : Prop :=
  PrimFloat.leb (Total_Hours_Worked b) (Total_Hours_Worked a) = true.

(** Alphabetical order without regard to case. *)
Definition upper_le (a b : string) : Prop :=
  String.ltb (upper b) (upper a) = false.

(** ** Small instances of the library interfaces

    They let the definitions above run on concrete inputs.  Each accepts
    a small part of what the real routine accepts. *)

Fixpoint digits_value (acc : Z) (s : string) : option Z :=
  match s with
  | EmptyString => Some acc
  | String c s' =>
    let n := Z.of_N (N_of_ascii c) in
    if (48 <=? n) && (n <=? 57) then digits_value (10 * acc + (n - 48)) s' else None
  end.

(** A non-empty run of decimal digits. *)
Definition parse_digits (s : string) : option Z :=
  match s with
  | EmptyString => None
  | _ => digits_value 0 s
  end.

Fixpoint split_on (sep : ascii) (s : string) : list string :=
  match s with
  | EmptyString => [EmptyString]
  | String c s' =>
    match split_on sep s' with
    | [] => [String c EmptyString]
    | w :: ws => if Ascii.eqb c sep then EmptyString :: w :: ws else String c w :: ws
    end
  end.

(** [h:mm:ss] with [mm] and [ss] below 60. *)
Definition parse_hms (s : string) : option clock :=
  match split_on ":" s with
  | [h; m; sec] =>
    h' ← parse_digits h; m' ← parse_digits m; s' ← parse_digits sec;
    if (m' <? 60) && (s' <? 60) then Some (Clock h' m' s') else None
  | _ => None
  end.

(** Durations written [h:mm:ss]. *)
Definition hms_to_timedelta (s : string) : option float :=
  c ← parse_hms s;
  Some (float_of_Z (hour c * 3600 + minute c * 60 + second c)).

(** Date-times written [yyyy-mm-dd h:mm:ss]. *)
Definition iso_to_datetime (s : string) : option parsed_datetime :=
  match split_on " " s with
  | [d; t] =>
    match split_on "-" d with
    | [y; mo; dd] =>
      _ ← parse_digits y; _ ← parse_digits mo; _ ← parse_digits dd;
      c ← parse_hms t;
      if hour c <? 24 then Some (Timestamp c) else None
    | _ => None
    end
  | _ => None
  end.

(** Integer literals with an optional minus sign. *)
Definition integer_literal (s : string) : option float :=
  match s with
  | String "-" s' => z ← parse_digits s'; Some (float_of_Z (- z))
  | _ => z ← parse_digits s; Some (float_of_Z z)
  end.

Definition sample_parsers : TextParsers :=
  {| to_timedelta := hms_to_timedelta;
     to_datetime := iso_to_datetime;
     float_of_str := integer_literal |}.

(** Left-to-right floating-point addition from 0. *)
Definition sum_left (l : list float) : float :=
  fold_left PrimFloat.add l 0%float.

(** Stable insertion sort by [Total_Hours_Worked], largest first: a row
    goes in front of the first row of the sorted rest that it is not
    smaller than. *)
Fixpoint insert_desc (x : agg_row) (l : list agg_row) : list agg_row :=
  match l with
  | [] => [x]
  | y :: l' =>
    if PrimFloat.ltb (Total_Hours_Worked x) (Total_Hours_Worked y)
    then y :: insert_desc x l'
    else x :: y :: l'
  end.

Definition sort_desc_stable (l : list agg_row) : list agg_row :=
  foldr insert_desc [] l.

Definition render (v : value) : string :=
  match v with
  | VBool true => "True"
  | VBool false => "False"
  | VInt z => pretty z
  | VStr s => s
  | _ => ""
  end.

Definition sample_pandas : Pandas :=
  {| str_of := render; series_sum := sum_left; sort_values := sort_desc_stable |}.

(** [p] limited to the interval from 0 to 1. *)
Definition clamp01 (p : float) : float :=
  if PrimFloat.ltb p 0 then 0%float
  else if PrimFloat.ltb 1 p then 1%float
  else p.

(** The named colours the script uses, as RGBA. *)
Definition named_color (n : string) : rgba :=
  if decide (n = "orange") then RGBA 1 (165 / 255) 0 1
  else if decide (n = "yellow") then RGBA 1 1 0 1
  else if decide (n = "green") then RGBA 0 (128 / 255) 0 1
  else RGBA 0 0 0 1.

Definition lerp (a b t : float) : float := (a + (b - a) * t)%float.

Definition lerp_rgba (a b : rgba) (t : float) : rgba :=
  RGBA (lerp (red a) (red b) t) (lerp (green a) (green b) t)
       (lerp (blue a) (blue b) t) (lerp (alpha a) (alpha b) t).

(** A three-stop gradient with stops at 0, 1/2 and 1, linear in each RGBA
    component between stops, and constant outside [0, 1]. *)
Definition three_stop (lo mid hi : rgba) (p : float) : rgba :=
  let q := clamp01 p in
  if PrimFloat.ltb q 0.5 then lerp_rgba lo mid (q * 2)%float
  else lerp_rgba mid hi ((q - 0.5) * 2)%float.

(** A continuous colormap over that gradient: a sample instance of the
    interface, not matplotlib's table. *)
Definition gradient_colormaps : Colormaps :=
  {| from_list := fun names x =>
       match names with
       | [lo; mid; hi] =>
         three_stop (named_color lo) (named_color mid) (named_color hi)
                    match x with
                    | NInt i => (float_of_Z i / 255)%float
                    | NFloat p => p
                    end
       | _ => RGBA 0 0 0 1
       end |}.

(** ** Auxiliary definitions for the statements below *)

(** The sign bit of a double that is not NaN. *)
Definition sf_sign (x : spec_float) : option bool :=
  match x with
  | S754_nan => None
  | S754_zero s | S754_infinity s | S754_finite s _ _ => Some s
  end.

(** The row the merge makes for one roster technician when keys are
    unique. *)
Definition joined_row (grouped : list agg_row) (t : string) : merged_row :=
  match filter (fun g => Technician g = t) grouped with
  | [] => MergedRow t None nan
  | g :: _ => MergedRow t (Some (Work_Orders_Completed g)) (Total_Hours_Worked g)
  end.

(** ** Sample uploads *)

(** A sheet with all three columns: a repeated work order, a row without
    work order and a row without technician. *)
Definition jobs_sheet : @uploaded_file string :=
  Upload "jobs.xlsx"
    (Ok (DataFrame [TECHNICIAN_COL; WORK_ORDER_COL; HOURS_COL]
           [ RawRow (VStr " a ") (Some "WO1"%string) (VTimedelta 3600);
             RawRow (VStr "A") (Some "WO1"%string) (VFloat 0.5);
             RawRow (VStr "b") (Some "WO2"%string) (VFloat 2);
             RawRow (VStr "b") None (VFloat 3);
             RawRow VNull (Some "WO9"%string) (VFloat 3) ])).

(** A sheet without the work-order column. *)
Definition short_sheet : @uploaded_file string :=
  Upload "short.xlsx"
    (Ok (DataFrame [TECHNICIAN_COL; HOURS_COL]
           [RawRow (VStr "A") None (VFloat 2)])).

(** ** The rest of the script: engine choice, metrics, download name *)

(** ASCII lower-casing, the counterpart of [upper_ascii] for
    [str.lower]. *)
Definition lower_ascii (c : ascii) : ascii :=
  let n := N_of_ascii c in
  if ((65 <=? n) && (n <=? 90))%N then ascii_of_N (n + 32) else c.

Fixpoint lower (s : string) : string :=
  match s with
  | EmptyString => EmptyString
  | String c s' => String (lower_ascii c) (lower s')
  end.

(** Line 92: [uploaded_file.name.split('.')[-1].lower()].  Python's
    [split] returns at least one piece, so [[-1]] never fails. *)
Definition file_ext (file_name : string) : string :=
  lower (List.last (split_on "." file_name) EmptyString).

(** Line 93: ["xlrd" if file_ext == "xls" else "openpyxl"] *)
Definition engine (file_name : string) : string :=
  if decide (file_ext file_name = "xls") then "xlrd" else "openpyxl".

(** [s.replace(old, new)] for single characters. *)
Fixpoint replace_char (old new : ascii) (s : string) : string :=
  match s with
  | EmptyString => EmptyString
  | String c s' =>
    String (if Ascii.eqb c old then new else c) (replace_char old new s')
  end.

(** Line 203: [f"{chart_title.replace(' ', '_').lower()}.png"] *)
Definition png_file_name (chart_title : string) : string :=
  (lower (replace_char " " "_" chart_title) ++ ".png")%string.

(** Line 132: [summary.shape[0]] *)
Definition total_technicians (table : list agg_row) : nat := length table.

(** Line 135: [summary["Work_Orders_Completed"].sum()] *)
Definition total_work_orders (table : list agg_row) : nat :=
  foldr Nat.add 0%nat (map Work_Orders_Completed table).

(** Whether a character occurs in a string. *)
Fixpoint occurs (c : ascii) (s : string) : bool :=
  match s with
  | EmptyString => false
  | String c' s' => Ascii.eqb c' c || occurs c s'
  end.

(** Whether every character of a string is white space. *)
Fixpoint all_space (s : string) : bool :=
  match s with
  | EmptyString => true
  | String c s' => is_space c && all_space s'
  end.

(** The seconds since midnight of a clock reading. *)
Definition seconds_of_day (c : clock) : Z :=
  hour c * 3600 + minute c * 60 + second c.

(** The integer a double holds once its fraction is cut off, as Python's
    [int(x)] gives it; 0 for infinities and NaN. *)
Definition trunc (x : float) : Z :=
  match Prim2SF x with
  | S754_finite s m e =>
    let a := if e <? 0 then Z.shiftr (Zpos m) (- e) else Z.shiftl (Zpos m) e in
    if s then - a else a
  | _ => 0
  end.

(** Whether [hours * 3600], rounded, gives back the seconds of a clock
    reading. *)
Definition seconds_recovered (h m s : Z) : bool :=
  trunc (rint (hour_of_day (Clock h m s) * 3600))
  =? seconds_of_day (Clock h m s).

(** ** Further sample uploads *)

(** A sheet with an integer duration beyond the range of a double. *)
Definition big_frame : @dataframe string :=
  DataFrame [TECHNICIAN_COL; WORK_ORDER_COL; HOURS_COL]
    [ RawRow (VStr "A") (Some "WO1"%string) (VFloat 2);
      RawRow (VStr "A") (Some "WO2"%string) (VInt (10 ^ 400)) ].

Definition big_sheet : @uploaded_file string := Upload "big.xlsx" (Ok big_frame).



(** ** matplotlib's colormap

    [LinearSegmentedColormap.from_list("", colors)] keeps a lookup table of
    [N = 256] entries and a call looks one entry up; the script relies on
    both (line 62 builds the map, line 63 calls it).  The definitions
    below follow [matplotlib.colors] and [numpy.linspace]. *)

(** [np.linspace(0, 1, num)[i]]: [i * step] with [step = 1 / (num - 1)],
    the last entry set to the stop itself. *)
Definition linspace (num i : Z) : float :=
  if i =? num - 1 then 1%float
  else (float_of_Z i * (1 / float_of_Z (num - 1)))%float.

(** [np.searchsorted(x, v)] on an ascending [x]: the number of entries
    below [v]. *)
Fixpoint searchsorted (x : list float) (v : float) : nat :=
  match x with
  | [] => 0%nat
  | a :: x' => if PrimFloat.ltb a v then S (searchsorted x' v) else 0%nat
  end.

(** Entry [k] of [_create_lookup_table(N, data)] for the rows
    [(x_j, y_j, y_j)] that [from_list] builds, with gamma 1: the ends are
    the first and last [y], an inner entry is interpolated between the two
    stops around [xind = (N - 1) * linspace(0, 1, N)[k]], and everything is
    clipped to [0, 1]. *)
Definition create_lookup_table (N : Z) (x y : list float) (k : Z) : float :=
  let xs := map (fun a => (a * float_of_Z (N - 1))%float) x in
  clamp01
    (if k =? 0 then nth 0 y 0%float
     else if k =? N - 1 then List.last y 0%float
     else
       let xind := (float_of_Z (N - 1) * linspace N k)%float in
       let ind := searchsorted xs xind in
       let distance :=
         ((xind - nth (ind - 1) xs 0) / (nth ind xs 0 - nth (ind - 1) xs 0))%float in
       (distance * (nth ind y 0 - nth (ind - 1) y 0) + nth (ind - 1) y 0)%float).

(** The number of entries of the table, [N]. *)
Definition lut_size : Z := 256.

(** Entry [k] of the table [_lut] of [from_list("", names)]: the stops are
    spread evenly, [vals = np.linspace(0, 1, len(names))], and each of the
    four channels has a table of its own. *)
Definition lut (names : list string) (k : Z) : rgba :=
  let colors := map named_color names in
  let vals := map (linspace (Z.of_nat (length names))) (seqZ 0 (Z.of_nat (length names))) in
  RGBA (create_lookup_table lut_size vals (map red colors) k)
       (create_lookup_table lut_size vals (map green colors) k)
       (create_lookup_table lut_size vals (map blue colors) k)
       (create_lookup_table lut_size vals (map alpha colors) k).

(** [Colormap.__call__] on a scalar.  A float is scaled by [N], with
    [N] itself taken as [N - 1], and cut to an integer; what falls below 0
    or reaches [N] gets the under and over colours, which default to the
    first and last entries, and NaN the bad colour, transparent black.  An
    integer is an index as it is. *)
Definition colormap_call (table : Z -> rgba) (X : norm_arg) : rgba :=
  match X with
  | NFloat p =>
    let xa := (p * float_of_Z lut_size)%float in
    let xa := if PrimFloat.eqb xa (float_of_Z lut_size)
              then float_of_Z (lut_size - 1) else xa in
    if PrimFloat.is_nan xa then RGBA 0 0 0 0
    else if PrimFloat.ltb xa 0 then table 0
    else if PrimFloat.leb (float_of_Z lut_size) xa then table (lut_size - 1)
    else table (trunc xa)
  | NInt i =>
    if i <? 0 then table 0
    else if lut_size <=? i then table (lut_size - 1)
    else table i
  end.

Definition matplotlib_colormaps : Colormaps :=
  {| from_list := fun names X => colormap_call (lut names) X |}.

(** The colours of the script's map. *)
Definition bar_colors : list string := ["orange"; "yellow"; "green"]%string.

(** Entry [k] of the script's map. *)
Definition entry (k : Z) : rgba := lut bar_colors k.

(** The gradient in the words of the specification: orange to yellow to
    green, linear in each RGB component, at position [p]. *)
Definition spec_gradient (p : float) : rgba :=
  three_stop (named_color "orange") (named_color "yellow") (named_color "green") p.

(** Two channel values that differ by at most [1e-15]. *)
Definition near (a b : float) : bool := PrimFloat.leb (PrimFloat.abs (a - b)) 1e-15.

Definition near_rgba (a b : rgba) : bool :=
  near (red a) (red b) && near (green a) (green b)
  && near (blue a) (blue b) && near (alpha a) (alpha b).

(** Whether entry [k] is the specification's gradient at [k / 255]. *)
Definition entry_on_gradient (k : Z) : bool :=
  near_rgba (entry k) (spec_gradient (float_of_Z k / 255)).

(** * Properties *)

(** ** Order facts on doubles, from the specification of the primitives *)

Lemma SFcompare_antisym (x y : spec_float) :
  SFcompare y x = CompOpp <$> SFcompare x y.
Proof.
  destruct x as [sx|sx| |sx mx ex], y as [sy|sy| |sy my ey]; simpl;
    try reflexivity; try (destruct sx; reflexivity);
    try (destruct sy; reflexivity); try (destruct sx, sy; reflexivity).
  rewrite (Z.compare_antisym ey ex).
  change (PosDef.Pos.compare_cont Eq my mx) with (my ?= mx)%positive.
  change (PosDef.Pos.compare_cont Eq mx my) with (mx ?= my)%positive.
  rewrite (Pos.compare_antisym my mx).
  destruct sx, sy; simpl; try reflexivity;
    destruct (ey ?= ex)%Z; simpl; try reflexivity;
    destruct (my ?= mx)%positive; reflexivity.
Qed.

Lemma SFcompare_defined (x y : spec_float) :
  x <> S754_nan -> y <> S754_nan -> is_Some (SFcompare x y).
Proof.
  destruct x, y; simpl; intros Hx Hy; try congruence; eauto.
Qed.

Lemma is_nan_Prim2SF (x : float) :
  PrimFloat.is_nan x = false -> Prim2SF x <> S754_nan.
Proof.
  unfold PrimFloat.is_nan. rewrite FloatAxioms.eqb_spec. unfold SFeqb.
  intros Hx Hnan. rewrite Hnan in Hx. discriminate.
Qed.

Lemma float_ltb_leb (x y : float) :
  PrimFloat.ltb x y = true -> PrimFloat.leb x y = true.
Proof.
  rewrite FloatAxioms.ltb_spec, FloatAxioms.leb_spec. unfold SFltb, SFleb.
  destruct (SFcompare _ _) as [[]|]; congruence.
Qed.

Lemma float_leb_not_ltb (x y : float) :
  PrimFloat.leb x y = true -> PrimFloat.ltb y x = false.
Proof.
  rewrite FloatAxioms.ltb_spec, FloatAxioms.leb_spec. unfold SFltb, SFleb.
  rewrite (SFcompare_antisym (Prim2SF x) (Prim2SF y)).
  destruct (SFcompare _ _) as [[]|]; simpl; congruence.
Qed.

Lemma float_ltb_irrefl (x : float) : PrimFloat.ltb x x = false.
Proof.
  destruct (PrimFloat.ltb x x) eqn:Hxx; [|done].
  pose proof (float_leb_not_ltb _ _ (float_ltb_leb _ _ Hxx)). congruence.
Qed.

Lemma float_not_ltb_leb (x y : float) :
  PrimFloat.is_nan x = false -> PrimFloat.is_nan y = false ->
  PrimFloat.ltb x y = false -> PrimFloat.leb y x = true.
Proof.
  intros Hx%is_nan_Prim2SF Hy%is_nan_Prim2SF.
  rewrite FloatAxioms.ltb_spec, FloatAxioms.leb_spec. unfold SFltb, SFleb.
  rewrite (SFcompare_antisym (Prim2SF x) (Prim2SF y)).
  destruct (SFcompare_defined _ _ Hx Hy) as [c ->].
  destruct c; simpl; congruence.
Qed.

Lemma float_leb_not_nan (x y : float) :
  PrimFloat.leb x y = true -> PrimFloat.is_nan x = false /\ PrimFloat.is_nan y = false.
Proof.
  rewrite FloatAxioms.leb_spec. unfold PrimFloat.is_nan.
  rewrite !FloatAxioms.eqb_spec. unfold SFleb, SFeqb.
  destruct (Prim2SF x) as [sx|sx| |sx mx ex], (Prim2SF y) as [sy|sy| |sy my ey];
    simpl; try discriminate; intros _;
    rewrite ?Z.compare_refl, ?Pos.compare_cont_refl;
    repeat match goal with s : bool |- _ => destruct s end; auto.
Qed.

(** ** Signs through rounding

    Multiplying or dividing by a finite constant, and rounding, keep a
    double away from NaN and give the sign the operands determine. *)

Lemma iter_pos_invariant {A} (P : A -> Prop) (f : A -> A) :
  (forall x, P x -> P (f x)) -> forall n x, P x -> P (SpecFloat.iter_pos f n x).
Proof.
  intros Hf n. induction n as [n IH|n IH|]; intros x Hx; simpl; auto.
Qed.

Lemma shr_1_nonneg mrs : 0 <= shr_m mrs -> 0 <= shr_m (shr_1 mrs).
Proof.
  destruct mrs as [m r s]. simpl. intros Hm.
  destruct m as [|[p|p|]|p]; simpl; lia.
Qed.

Lemma shr_fexp_nonneg m e l :
  0 <= m -> 0 <= shr_m (fst (shr_fexp prec emax m e l)).
Proof.
  intros Hm. unfold shr_fexp, shr.
  assert (0 <= shr_m (shr_record_of_loc m l)) as H0 by (by destruct l as [|[]]).
  destruct (fexp prec emax (Zdigits2 m + e) - e); simpl; try done.
  apply (iter_pos_invariant (fun mrs => 0 <= shr_m mrs)); [|exact H0].
  apply shr_1_nonneg.
Qed.

Lemma round_nearest_even_nonneg m l : 0 <= m -> 0 <= round_nearest_even m l.
Proof. intros Hm. destruct l as [|[]]; simpl; try done; [destruct (Z.even m)|]; lia. Qed.

Lemma binary_round_aux_sign s m e l :
  0 <= m -> sf_sign (binary_round_aux prec emax s m e l) = Some s.
Proof.
  intros Hm. unfold binary_round_aux.
  pose proof (shr_fexp_nonneg m e l Hm) as H1.
  destruct (shr_fexp prec emax m e l) as [mrs' e']. simpl in H1.
  pose proof (shr_fexp_nonneg _ e' loc_Exact
                (round_nearest_even_nonneg _ (loc_of_shr_record mrs') H1)) as H2.
  destruct (shr_fexp prec emax _ e' loc_Exact) as [mrs'' e'']. simpl in H2.
  destruct (shr_m mrs'') as [|p|p]; [done| |lia].
  by destruct (e'' <=? emax - prec).
Qed.

Lemma binary_round_sign s m e : sf_sign (binary_round prec emax s m e) = Some s.
Proof.
  unfold binary_round. destruct (shl_align _ _ _) as [mz ez].
  by apply binary_round_aux_sign.
Qed.

Lemma SFmul_sign x s sc mc ec :
  sf_sign x = Some s ->
  sf_sign (SFmul prec emax x (S754_finite sc mc ec)) = Some (xorb s sc).
Proof.
  destruct x as [sx|sx| |sx mx ex]; simpl; intros [= <-]; try done.
  by apply binary_round_aux_sign.
Qed.

Lemma SFdiv_sign x s sc mc ec :
  sf_sign x = Some s ->
  sf_sign (SFdiv prec emax x (S754_finite sc mc ec)) = Some (xorb s sc).
Proof.
  destruct x as [sx|sx| |sx mx ex]; simpl; intros [= <-]; try done.
  unfold SFdiv_core_binary.
  set (m' := match _ - _ - _ with Z0 => Zpos mx | Zpos _ => _ | Zneg _ => 0 end).
  assert (0 <= m') as Hm'.
  { subst m'. destruct (_ - _ - _); try lia. apply Z.shiftl_nonneg. lia. }
  pose proof (Z.div_pos m' (Zpos mc) Hm' ltac:(lia)) as Hq.
  unfold Z.div in Hq. destruct (Z.div_eucl m' (Z.pos mc)) as [q r].
  by apply binary_round_aux_sign.
Qed.

Lemma Prim2SF_not_nan (x : float) :
  Prim2SF x <> S754_nan -> PrimFloat.is_nan x = false.
Proof.
  unfold PrimFloat.is_nan. rewrite FloatAxioms.eqb_spec. unfold SFeqb.
  destruct (Prim2SF x) as [s|s| |s m e]; simpl; try done; intros _.
  - by destruct s.
  - rewrite Z.compare_refl, Pos.compare_cont_refl. by destruct s.
Qed.

Lemma float_mul_sign (x c : float) s sc mc ec :
  Prim2SF c = S754_finite sc mc ec -> sf_sign (Prim2SF x) = Some s ->
  sf_sign (Prim2SF (x * c)) = Some (xorb s sc).
Proof.
  intros Hc Hx. rewrite FloatAxioms.mul_spec, Hc. by apply SFmul_sign.
Qed.

Lemma float_mul_zero (x c : float) s sc mc ec :
  Prim2SF c = S754_finite sc mc ec -> Prim2SF x = S754_zero s ->
  Prim2SF (x * c) = S754_zero (xorb s sc).
Proof. intros Hc Hx. by rewrite FloatAxioms.mul_spec, Hc, Hx. Qed.

Lemma float_div_sign (x c : float) s sc mc ec :
  Prim2SF c = S754_finite sc mc ec -> sf_sign (Prim2SF x) = Some s ->
  sf_sign (Prim2SF (x / c)) = Some (xorb s sc).
Proof.
  intros Hc Hx. rewrite FloatAxioms.div_spec, Hc. by apply SFdiv_sign.
Qed.

Lemma float_div_zero (x c : float) s sc mc ec :
  Prim2SF c = S754_finite sc mc ec -> Prim2SF x = S754_zero s ->
  Prim2SF (x / c) = S754_zero (xorb s sc).
Proof. intros Hc Hx. by rewrite FloatAxioms.div_spec, Hc, Hx. Qed.

Lemma of_uint63_sign (n : int) : sf_sign (Prim2SF (of_uint63 n)) = Some false.
Proof.
  rewrite FloatAxioms.of_uint63_spec. unfold binary_normalize.
  pose proof (Uint63.to_Z_bounded n) as Hn.
  destruct (Uint63.to_Z n) as [|p|p]; [done| |lia].
  apply binary_round_sign.
Qed.

Lemma SFopp_sign (x : spec_float) (s : bool) :
  sf_sign x = Some s -> sf_sign (SFopp x) = Some (negb s).
Proof. destruct x; simpl; congruence. Qed.

Lemma rint_sign (x : float) (s : bool) :
  sf_sign (Prim2SF x) = Some s -> sf_sign (Prim2SF (rint x)) = Some s.
Proof.
  unfold rint. destruct (Prim2SF x) as [sx|sx| |sx m e] eqn:Hx; try done.
  - by rewrite Hx.
  - by rewrite Hx.
  - simpl. intros [= ->]. destruct (e <? 0); [|by rewrite Hx].
    destruct s; [|apply of_uint63_sign].
    rewrite FloatAxioms.opp_spec.
    apply (SFopp_sign _ false), of_uint63_sign.
Qed.

Lemma rint_zero (x : float) (s : bool) :
  Prim2SF x = S754_zero s -> rint x = x.
Proof. unfold rint. by intros ->. Qed.

Lemma Prim2SF_100 : Prim2SF 100 = S754_finite false 7036874417766400 (-46).
Proof. reflexivity. Qed.

Lemma Prim2SF_24 : Prim2SF 24 = S754_finite false 6755399441055744 (-48).
Proof. reflexivity. Qed.

Lemma round2_sign (x : float) (s : bool) :
  sf_sign (Prim2SF x) = Some s -> sf_sign (Prim2SF (round2 x)) = Some s.
Proof.
  intros Hx. unfold round2.
  rewrite <- (xorb_false_r s). eapply float_div_sign; [apply Prim2SF_100|].
  apply rint_sign.
  rewrite <- (xorb_false_r s). eapply float_mul_sign; [apply Prim2SF_100|].
  exact Hx.
Qed.

Lemma round2_zero (x : float) (s : bool) :
  Prim2SF x = S754_zero s -> Prim2SF (round2 x) = S754_zero s.
Proof.
  intros Hx. unfold round2.
  pose proof (float_mul_zero x 100 s _ _ _ Prim2SF_100 Hx) as Hm.
  rewrite xorb_false_r in Hm. rewrite (rint_zero _ s Hm).
  pose proof (float_div_zero _ 100 s _ _ _ Prim2SF_100 Hm) as Hd.
  by rewrite xorb_false_r in Hd.
Qed.

Lemma SFsub_finite_defined (x : spec_float) (sc : bool) (mc : positive) (ec : Z) :
  x <> S754_nan -> SFsub prec emax x (S754_finite sc mc ec) <> S754_nan.
Proof.
  destruct x as [sx|sx| |sx mx ex]; simpl; try done. intros _.
  unfold binary_normalize.
  destruct (_ - _) as [|p|p]; [done| |].
  - pose proof (binary_round_sign false p (Z.min ex ec)) as Hs.
    intros Hnan. by rewrite Hnan in Hs.
  - pose proof (binary_round_sign true p (Z.min ex ec)) as Hs.
    intros Hnan. by rewrite Hnan in Hs.
Qed.

Lemma float_sub_not_nan (x c : float) (sc : bool) (mc : positive) (ec : Z) :
  Prim2SF c = S754_finite sc mc ec -> PrimFloat.is_nan x = false ->
  PrimFloat.is_nan (x - c) = false.
Proof.
  intros Hc Hx%is_nan_Prim2SF. apply Prim2SF_not_nan.
  rewrite FloatAxioms.sub_spec, Hc. by apply SFsub_finite_defined.
Qed.

Lemma Prim2SF_20 : Prim2SF 20 = S754_finite false 5629499534213120 (-48).
Proof. reflexivity. Qed.

(** [0 <= x] in terms of the representation: a zero of either sign, or a
    double with a clear sign bit. *)
Lemma float_nonneg_shape (x : float) :
  PrimFloat.leb 0 x = true <->
  (exists s, Prim2SF x = S754_zero s) \/ sf_sign (Prim2SF x) = Some false.
Proof.
  rewrite FloatAxioms.leb_spec. change (Prim2SF 0) with (S754_zero false).
  unfold SFleb. destruct (Prim2SF x) as [s|s| |s m e]; simpl;
    try destruct s;
    (split; [intros Hle; first [discriminate Hle | by right | by left; eauto]
            |intros [[s' Hs]|Hs]; first [reflexivity | discriminate]]).
Qed.

(** [x <= 0], likewise. *)
Lemma float_nonpos_shape (x : float) :
  PrimFloat.leb x 0 = true <->
  (exists s, Prim2SF x = S754_zero s) \/ sf_sign (Prim2SF x) = Some true.
Proof.
  rewrite FloatAxioms.leb_spec. change (Prim2SF 0) with (S754_zero false).
  unfold SFleb. destruct (Prim2SF x) as [s|s| |s m e]; simpl;
    try destruct s;
    (split; [intros Hle; first [discriminate Hle | by right | by left; eauto]
            |intros [[s' Hs]|Hs]; first [reflexivity | discriminate]]).
Qed.

(** Rounding to two decimals keeps a total that is not negative from
    becoming negative. *)
Lemma round2_nonneg (x : float) :
  PrimFloat.leb 0 x = true -> PrimFloat.leb 0 (round2 x) = true.
Proof.
  rewrite !float_nonneg_shape. intros [[s Hx]|Hx].
  - left. exists s. by apply round2_zero.
  - right. by apply round2_sign.
Qed.

(** It keeps a total that is not positive from becoming positive. *)
Lemma round2_nonpos (x : float) :
  PrimFloat.leb x 0 = true -> PrimFloat.leb (round2 x) 0 = true.
Proof.
  rewrite !float_nonpos_shape. intros [[s Hx]|Hx].
  - left. exists s. by apply round2_zero.
  - right. by apply round2_sign.
Qed.

(** It never produces NaN from a number. *)
Lemma round2_not_nan (x : float) :
  PrimFloat.is_nan x = false -> PrimFloat.is_nan (round2 x) = false.
Proof.
  intros Hx%is_nan_Prim2SF. apply Prim2SF_not_nan.
  destruct (sf_sign (Prim2SF x)) as [s|] eqn:Hs.
  - apply round2_sign in Hs. intros Hnan. by rewrite Hnan in Hs.
  - by destruct (Prim2SF x).
Qed.

(** The day-fraction rule keeps a number that is not negative from
    becoming negative. *)
Lemma day_fraction_nonneg (val : float) :
  PrimFloat.leb 0 val = true -> PrimFloat.leb 0 (day_fraction val) = true.
Proof.
  intros Hval. unfold day_fraction.
  destruct (PrimFloat.leb 0 val && PrimFloat.leb val 1); [|done].
  apply float_nonneg_shape in Hval. apply float_nonneg_shape.
  destruct Hval as [[s Hx]|Hx].
  - left. exists (xorb s false). by eapply float_mul_zero; [apply Prim2SF_24|].
  - right. rewrite <- (xorb_false_r false).
    by eapply float_mul_sign; [apply Prim2SF_24|].
Qed.

(** ** [time_to_hours] *)

Lemma forallb_seqZ (f : Z -> bool) (m n x : Z) :
  forallb f (seqZ m n) = true -> m <= x < m + n -> f x = true.
Proof.
  intros Hall Hx. rewrite forallb_forall in Hall.
  apply Hall, list_elem_of_In, elem_of_seqZ. exact Hx.
Qed.

Lemma all_of_day_spec (f : Z -> Z -> Z -> bool) (h m s : Z) :
  all_of_day f = true ->
  0 <= h < 24 -> 0 <= m < 60 -> 0 <= s < 60 -> f h m s = true.
Proof.
  unfold all_of_day. intros Hall Hh Hm Hs.
  apply (forallb_seqZ _ 0 24 h) in Hall; [|lia].
  apply (forallb_seqZ _ 0 60 m) in Hall; [|lia].
  apply (forallb_seqZ _ 0 60 s) in Hall; [|lia].
  exact Hall.
Qed.

Lemma clock_range_checked : all_of_day clock_in_range = true.
Proof. vm_compute. reflexivity. Qed.

Lemma hour_of_day_range (c : clock) :
  clock_ok c ->
  PrimFloat.leb 0 (hour_of_day c) = true /\ PrimFloat.ltb (hour_of_day c) 24 = true.
Proof.
  destruct c as [h m s]. intros (Hh & Hm & Hs).
  apply andb_prop.
  exact (all_of_day_spec clock_in_range h m s clock_range_checked Hh Hm Hs).
Qed.

Lemma float_of_int_finite (z : Z) :
  PrimFloat.is_infinity (float_of_Z z) = false -> float_of_int z = Ok (float_of_Z z).
Proof. unfold float_of_int. intros ->. reflexivity. Qed.

Lemma float_of_int_overflow (z : Z) :
  PrimFloat.is_infinity (float_of_Z z) = true -> float_of_int z = Raise OverflowError.
Proof. unfold float_of_int. intros ->. reflexivity. Qed.

(** On a numeric cell that is not null, [time_to_hours] applies the
    day-fraction rule to the cell's float value. *)
Lemma time_to_hours_numeric (parsers : TextParsers) (t : value) (val : float) :
  isnull t = false -> float_value t = Some val ->
  time_to_hours t = Ok (day_fraction val).
Proof.
  unfold time_to_hours. intros ->.
  destruct t as [ |secs|c|c|b|z|f|s]; simpl; try discriminate.
  - intros [= <-]. destruct b; reflexivity.
  - destruct (PrimFloat.is_infinity (float_of_Z z)) eqn:Hz; [discriminate|].
    intros [= <-]. rewrite (float_of_int_finite z Hz). reflexivity.
  - intros [= <-]. reflexivity.
Qed.

(** C1 (as stated) fails: a negative number in a cell comes back
    unchanged, below zero, not degraded to 0.0. *)
Lemma time_to_hours_negative_number :
  @time_to_hours sample_parsers (VFloat (-2.5)) = Ok (-2.5)%float
  /\ PrimFloat.ltb (-2.5) 0 = true
  /\ PrimFloat.leb 0 (-2.5) = false.
Proof. repeat split; reflexivity. Qed.

(** Further inputs on which the result is not a finite value from 0 up:
    an infinite number stays infinite, a negative duration gives negative
    hours, and an integer beyond the double range makes [float(t)] raise. *)
Example time_to_hours_other_escapes :
  @time_to_hours sample_parsers (VFloat infinity) = Ok infinity
  /\ @time_to_hours sample_parsers (VTimedelta (-3600)) = Ok (-1)%float
  /\ @time_to_hours sample_parsers (VInt (10 ^ 400)) = Raise OverflowError.
Proof. repeat split; vm_compute; reflexivity. Qed.

(** Closes the goals that speak of a cell of another shape. *)
Ltac settle := try done; try (intros ? [?|?]; discriminate).

(** C1 (amended): [time_to_hours] returns a float on every cell except an
    integer too large for a double, where [float(t)] raises.  The result
    is 0.0 on a null cell and on text that none of the three parsers
    accepts; it lies from 0 up to, not including, 24 on a timestamp or a
    clock time, and is not negative on a number that is not negative; it
    is [total_seconds / 3600] on a duration, and a number outside [0, 1]
    comes back unchanged, so negative inputs give negative hours. *)
Theorem time_to_hours_total (parsers : TextParsers) (t : value) :
  (exists z, t = VInt z /\ PrimFloat.is_infinity (float_of_Z z) = true
             /\ time_to_hours t = Raise OverflowError)
  \/ (exists h, time_to_hours t = Ok h
      /\ (isnull t = true -> h = 0%float)
      /\ (forall c, t = VTimestamp c \/ t = VTime c -> clock_ok c ->
            PrimFloat.leb 0 h = true /\ PrimFloat.ltb h 24 = true)
      /\ (forall s, t = VStr s -> to_timedelta s = None ->
            to_datetime s = None -> float_of_str s = None -> h = 0%float)
      /\ (forall secs, t = VTimedelta secs -> h = (secs / 3600)%float)
      /\ (forall val, isnull t = false -> float_value t = Some val ->
            PrimFloat.leb 0 val && PrimFloat.leb val 1 = false -> h = val)
      /\ (forall val, isnull t = false -> float_value t = Some val ->
            PrimFloat.leb 0 val = true -> PrimFloat.leb 0 h = true)).
Proof.
  destruct t as [ |secs|c|c|b|z|f|s].
  - right. exists 0%float. split_and!; settle.
  - right. exists (secs / 3600)%float. split_and!; settle.
    by intros secs' [= <-].
  - right. exists (hour_of_day c). split_and!; settle.
    intros c' [[= <-]|?] Hc; [|discriminate]. by apply hour_of_day_range.
  - right. exists (hour_of_day c). split_and!; settle.
    intros c' [?|[= <-]] Hc; [discriminate|]. by apply hour_of_day_range.
  - right. exists (day_fraction (if b then 1 else 0)%float).
    split_and!; settle; [by destruct b| |].
    + intros val _ [= <-]. by destruct b.
    + intros val _ [= <-] _. by destruct b.
  - destruct (PrimFloat.is_infinity (float_of_Z z)) eqn:Hz.
    + left. exists z. split_and!; settle.
      unfold time_to_hours. simpl. by rewrite float_of_int_overflow.
    + right. exists (day_fraction (float_of_Z z)). split_and!; settle.
      * apply time_to_hours_numeric; [done|]. simpl. by rewrite Hz.
      * intros val _. simpl. rewrite Hz. intros [= <-] Hout.
        unfold day_fraction. by rewrite Hout.
      * intros val _. simpl. rewrite Hz. intros [= <-].
        apply day_fraction_nonneg.
  - destruct (PrimFloat.is_nan f) eqn:Hf.
    + right. exists 0%float. unfold time_to_hours. simpl. rewrite Hf.
      split_and!; settle.
    + right. exists (day_fraction f). split_and!; settle.
      * by apply time_to_hours_numeric.
      * simpl. congruence.
      * intros val _ [= <-] Hout. unfold day_fraction. by rewrite Hout.
      * intros val _ [= <-]. apply day_fraction_nonneg.
  - right. exists (text_to_hours s). split_and!; settle.
    intros s' [= <-] Htd Hdt Hfl. unfold text_to_hours.
    by rewrite Htd, Hdt, Hfl.
Qed.

(** The amended C1 at a timestamp reading 14:30:00. *)
Lemma time_to_hours_total_witness :
  exists h, @time_to_hours sample_parsers (VTimestamp (Clock 14 30 0)) = Ok h
            /\ PrimFloat.leb 0 h = true /\ PrimFloat.ltb h 24 = true.
Proof.
  destruct (time_to_hours_total sample_parsers (VTimestamp (Clock 14 30 0)))
    as [(z & Hz & _)|(h & Hh & _ & Hclock & _)]; [discriminate|].
  exists h. split; [exact Hh|].
  apply (Hclock (Clock 14 30 0)); [by left|].
  unfold clock_ok; simpl; lia.
Defined.

(** C4: on a numeric cell with float value [val] (a cell that is not
    null: NaN is pandas' missing marker and takes rule 1), [time_to_hours]
    returns [val * 24] when [0 <= val <= 1] and [val] unchanged otherwise;
    0.5 gives 12.0 and 5.0 gives 5.0. *)
Theorem numeric_day_fraction (parsers : TextParsers) :
  (forall (t : value) (val : float),
     isnull t = false -> float_value t = Some val ->
     time_to_hours t
     = Ok (if PrimFloat.leb 0 val && PrimFloat.leb val 1
           then (val * 24)%float else val))
  /\ time_to_hours (VFloat 0.5) = Ok 12%float
  /\ time_to_hours (VFloat 5) = Ok 5%float.
Proof.
  split_and!; [|reflexivity..].
  intros t val Hnull Hval. by apply time_to_hours_numeric.
Qed.

(** C4 at the integer cell 1, a whole day. *)
Lemma numeric_day_fraction_witness :
  @time_to_hours sample_parsers (VInt 1) = Ok 24%float.
Proof.
  exact (proj1 (numeric_day_fraction sample_parsers) (VInt 1) 1%float
               eq_refl eq_refl).
Defined.

(** C6: on text, [time_to_hours] takes the duration parse if it succeeds;
    otherwise the date-time parse, to which it applies
    [hour + minute/60 + second/3600]; otherwise the parse as a number;
    and when all three fail it returns 0.0.  It never raises.  A string
    the three parsers reject, such as ["not a time"], gives 0.0. *)
Theorem text_fallback_chain (parsers : TextParsers) (s : string) :
  (forall secs, to_timedelta s = Some secs ->
     time_to_hours (VStr s) = Ok (secs / 3600)%float)
  /\ (forall c, to_timedelta s = None -> to_datetime s = Some (Timestamp c) ->
        time_to_hours (VStr s)
        = Ok (float_of_Z (hour c) + float_of_Z (minute c) / 60
              + float_of_Z (second c) / 3600)%float)
  /\ (forall f, to_timedelta s = None -> to_datetime s = None ->
        float_of_str s = Some f -> time_to_hours (VStr s) = Ok f)
  /\ (to_timedelta s = None -> to_datetime s = None -> float_of_str s = None ->
        time_to_hours (VStr s) = Ok 0%float)
  /\ is_ok (time_to_hours (VStr s)) = true
  /\ (to_timedelta "not a time" = None -> to_datetime "not a time" = None ->
        float_of_str "not a time" = None ->
        time_to_hours (VStr "not a time") = Ok 0%float).
Proof.
  unfold time_to_hours, text_to_hours; simpl. split_and!.
  - by intros secs ->.
  - by intros c -> ->.
  - by intros f -> -> ->.
  - by intros -> -> ->.
  - reflexivity.
  - by intros -> -> ->.
Qed.

(** C6 on ["not a time"] with the sample parsers, which all reject it. *)
Lemma text_fallback_chain_witness :
  @time_to_hours sample_parsers (VStr "not a time") = Ok 0%float.
Proof.
  apply (text_fallback_chain sample_parsers "not a time"); reflexivity.
Defined.

(** The three stages on strings the sample parsers accept. *)
Example text_fallback_stages :
  @time_to_hours sample_parsers (VStr "01:30:00") = Ok 1.5%float
  /\ @time_to_hours sample_parsers (VStr "2024-01-05 14:30:00") = Ok 14.5%float
  /\ @time_to_hours sample_parsers (VStr "12") = Ok 12%float.
Proof. repeat split; vm_compute; reflexivity. Qed.

(** ** The roster merge (lines 122-128) *)

Lemma map_fmap {A B : Type} (f : A -> B) (l : list A) : map f l = f <$> l.
Proof. reflexivity. Qed.

Lemma elem_of_map {A B : Type} (f : A -> B) (l : list A) (y : B) :
  y ∈ map f l <-> exists x, y = f x /\ x ∈ l.
Proof. rewrite map_fmap. apply list_elem_of_fmap. Qed.

Lemma filter_key_unique (D : list agg_row) (t : string) :
  NoDup (map Technician D) ->
  filter (fun g => Technician g = t) D = []
  \/ exists g, filter (fun g => Technician g = t) D = [g].
Proof.
  induction D as [|g D IH]; intros Hnd; [by left|].
  simpl in Hnd. apply NoDup_cons in Hnd as [Hg Hnd].
  rewrite filter_cons. destruct (decide (Technician g = t)) as [Heq|Hne].
  - right. exists g. f_equal.
    destruct (filter (fun g => Technician g = t) D) as [|g' l] eqn:Hf; [done|].
    exfalso. apply Hg.
    assert (g' ∈ filter (fun g => Technician g = t) D) as Hin
      by (rewrite Hf; left).
    apply list_elem_of_filter in Hin as [Hk Hin].
    apply elem_of_map. exists g'. by rewrite Heq, Hk.
  - by apply IH.
Qed.

Lemma merge_left_unique (R : list string) (D : list agg_row) :
  NoDup (map Technician D) -> merge_left R D = map (joined_row D) R.
Proof.
  intros Hnd. induction R as [|t R IH]; [done|].
  unfold merge_left. cbn [flat_map]. fold (merge_left R D).
  rewrite IH. cbn [map]. unfold joined_row at 2.
  by destruct (filter_key_unique D t Hnd) as [->|[g ->]].
Qed.

Lemma joined_row_absent (D : list agg_row) (t : string) :
  t ∉ map Technician D -> fill_row (joined_row D t) = AggRow t 0 0.
Proof.
  intros Ht. unfold joined_row.
  destruct (filter (fun g => Technician g = t) D) as [|g l] eqn:Hf; [done|].
  exfalso. apply Ht.
  assert (g ∈ filter (fun g => Technician g = t) D) as Hin by (rewrite Hf; left).
  apply list_elem_of_filter in Hin as [Hk Hin].
  apply elem_of_map. by exists g.
Qed.

Lemma joined_row_present (D : list agg_row) (g : agg_row) :
  NoDup (map Technician D) -> g ∈ D ->
  fill_row (joined_row D (Technician g))
  = AggRow (Technician g) (Work_Orders_Completed g)
           (round2 (fillna 0 (Total_Hours_Worked g))).
Proof.
  intros Hnd Hg. unfold joined_row.
  assert (g ∈ filter (fun g' => Technician g' = Technician g) D) as Hin
    by (by apply list_elem_of_filter).
  destruct (filter_key_unique D (Technician g) Hnd) as [Hf|[g' Hf]];
    rewrite Hf in Hin.
  - by apply elem_of_nil in Hin.
  - apply list_elem_of_singleton in Hin as ->. by rewrite Hf.
Qed.

Lemma joined_row_Technician (D : list agg_row) (t : string) :
  Technician (fill_row (joined_row D t)) = t.
Proof. unfold joined_row. by destruct (filter _ D). Qed.

Lemma summary_unique (R : list string) (D : list agg_row) :
  NoDup (map Technician D) ->
  summary R D = map (fun t => fill_row (joined_row D t)) R.
Proof.
  intros Hnd. unfold summary. by rewrite merge_left_unique, map_map.
Qed.

Lemma summary_Technician (R : list string) (D : list agg_row) :
  NoDup (map Technician D) -> map Technician (summary R D) = R.
Proof.
  intros Hnd. rewrite summary_unique, map_map by done.
  induction R as [|t R IH]; [done|]. cbn [map].
  by rewrite joined_row_Technician, IH.
Qed.

(** Every row of the summary belongs to a roster technician, and is
    either the zero row of a technician without aggregated data or the
    technician's aggregated row with its hours filled and rounded. *)
Lemma summary_row_spec (R : list string) (D : list agg_row) (r : agg_row) :
  NoDup (map Technician D) -> r ∈ summary R D ->
  Technician r ∈ R
  /\ (((Technician r ∉ map Technician D) /\ r = AggRow (Technician r) 0 0)
      \/ (exists g, g ∈ D /\ Technician g = Technician r
                    /\ r = AggRow (Technician r) (Work_Orders_Completed g)
                                  (round2 (fillna 0 (Total_Hours_Worked g))))).
Proof.
  intros Hnd. rewrite summary_unique by done.
  intros (t & -> & Ht)%elem_of_map.
  rewrite joined_row_Technician. split; [done|].
  destruct (decide (t ∈ map Technician D)) as [Hin|Hout].
  - right. apply elem_of_map in Hin as (g & -> & Hg).
    exists g. split_and!; try done. by apply joined_row_present.
  - left. split; [done|]. by apply joined_row_absent.
Qed.

Lemma summary_sorted_elem (pandas : Pandas) (flag : bool)
    (R : list string) (D : list agg_row) (r : agg_row) :
  rearranges sort_values -> r ∈ summary_sorted flag R D <-> r ∈ summary R D.
Proof.
  intros Hperm. unfold summary_sorted. destruct flag; [|done].
  by rewrite (Hperm (summary R D)).
Qed.

Lemma summary_sorted_perm (pandas : Pandas) (flag : bool)
    (R : list string) (D : list agg_row) :
  rearranges sort_values -> summary_sorted flag R D ≡ₚ summary R D.
Proof.
  intros Hperm. unfold summary_sorted. destruct flag; [|done]. apply Hperm.
Qed.

(** C2: for a roster [R] and aggregated rows [D] with one row per
    technician, the merged summary, sorted or not, has exactly one row per
    roster technician (so [|R|] rows), a roster technician absent from [D]
    gets 0 work orders and 0.0 hours, and no technician outside [R]
    appears. *)
Theorem summary_left_join (pandas : Pandas) (sort_by_hours : bool)
    (R : list string) (D : list agg_row) :
  rearranges sort_values -> NoDup (map Technician D) ->
  length (summary_sorted sort_by_hours R D) = length R
  /\ map Technician (summary_sorted sort_by_hours R D) ≡ₚ R
  /\ map Technician (summary R D) = R
  /\ (forall r, r ∈ summary_sorted sort_by_hours R D ->
        Technician r ∉ map Technician D ->
        Work_Orders_Completed r = 0%nat /\ Total_Hours_Worked r = 0%float)
  /\ (forall r, r ∈ summary_sorted sort_by_hours R D -> Technician r ∈ R).
Proof.
  intros Hperm Hnd.
  pose proof (summary_sorted_perm pandas sort_by_hours R D Hperm) as Hp.
  split_and!.
  - rewrite Hp, summary_unique by done. apply length_map.
  - by rewrite map_fmap, Hp, <- map_fmap, summary_Technician.
  - by apply summary_Technician.
  - intros r Hr%summary_sorted_elem Habs; [|done].
    destruct (summary_row_spec R D r Hnd Hr) as [_ [[_ ->]|(g & Hg & Hk & _)]];
      [done|].
    exfalso. apply Habs, elem_of_map. by exists g.
  - intros r Hr%summary_sorted_elem; [|done].
    by destruct (summary_row_spec R D r Hnd Hr).
Qed.

Lemma summary_row_present (R : list string) (D : list agg_row) (r g : agg_row) :
  NoDup (map Technician D) -> r ∈ summary R D -> g ∈ D ->
  Technician g = Technician r ->
  r = AggRow (Technician g) (Work_Orders_Completed g)
             (round2 (fillna 0 (Total_Hours_Worked g))).
Proof.
  intros Hnd. rewrite summary_unique by done.
  intros (t & -> & Ht)%elem_of_map Hg. rewrite joined_row_Technician.
  intros <-. by apply joined_row_present.
Qed.

Lemma fillna_not_nan (x : float) : PrimFloat.is_nan (fillna 0 x) = false.
Proof. unfold fillna. by destruct (PrimFloat.is_nan x) eqn:Hx. Qed.

Lemma fillna_number (d x : float) : PrimFloat.is_nan x = false -> fillna d x = x.
Proof. unfold fillna. by intros ->. Qed.

Lemma summary_not_nan (R : list string) (D : list agg_row) :
  Forall (fun r => PrimFloat.is_nan (Total_Hours_Worked r) = false) (summary R D).
Proof.
  apply Forall_forall. intros r (m & -> & _)%elem_of_map. simpl.
  apply round2_not_nan, fillna_not_nan.
Qed.

(** C5 (as stated) fails: a technician whose only row holds -2.5 hours
    gets a total of -2.5, below zero, both from the merge alone and from a
    whole run. *)
Lemma negative_total_hours :
  summary ["A"]%string [AggRow "A" 1 (-2.5)] = [AggRow "A" 1 (-2.5)]
  /\ PrimFloat.ltb (-2.5) 0 = true
  /\ @run string _ sample_parsers sample_pandas ["A"]%string false
       [Upload "jobs.xlsx"
          (Ok (DataFrame [TECHNICIAN_COL; WORK_ORDER_COL; HOURS_COL]
                         [RawRow (VStr "a") (Some "WO1"%string) (VFloat (-2.5))]))]
     = Report [AggRow "A" 1 (-2.5)] [].
Proof. split_and!; vm_compute; reflexivity. Qed.

(** C5 (amended): in every merged summary, sorted or not, each entry's
    total hours are the technician's aggregated sum, or 0.0 where the
    roster technician has none or the sum is missing, rounded to two
    decimals.  The total is a number; it is 0.0 for a technician without
    aggregated data, not negative when the aggregated sum is not negative,
    and not positive when the sum is negative. *)
Theorem total_hours_rounded (pandas : Pandas) (sort_by_hours : bool)
    (R : list string) (D : list agg_row) (r : agg_row) :
  rearranges sort_values -> NoDup (map Technician D) ->
  r ∈ summary_sorted sort_by_hours R D ->
  PrimFloat.is_nan (Total_Hours_Worked r) = false
  /\ ((Technician r ∉ map Technician D) ->
        Total_Hours_Worked r = round2 0 /\ Total_Hours_Worked r = 0%float)
  /\ (forall g, g ∈ D -> Technician g = Technician r ->
        Total_Hours_Worked r = round2 (fillna 0 (Total_Hours_Worked g))
        /\ (PrimFloat.leb 0 (Total_Hours_Worked g) = true ->
              PrimFloat.leb 0 (Total_Hours_Worked r) = true)
        /\ (PrimFloat.ltb (Total_Hours_Worked g) 0 = true ->
              PrimFloat.leb (Total_Hours_Worked r) 0 = true)).
Proof.
  intros Hperm Hnd Hr%summary_sorted_elem; [|done]. split_and!.
  - pose proof (summary_not_nan R D) as Hall.
    rewrite Forall_forall in Hall. by apply Hall.
  - intros Habs.
    destruct (summary_row_spec R D r Hnd Hr) as [_ [[_ ->]|(g & Hg & Hk & _)]];
      [done|].
    exfalso. apply Habs, elem_of_map. by exists g.
  - intros g Hg Hk.
    rewrite (summary_row_present R D r g Hnd Hr Hg Hk). simpl. split_and!.
    + done.
    + intros Hpos. destruct (float_leb_not_nan _ _ Hpos) as [_ Hnum].
      rewrite (fillna_number 0 _ Hnum). by apply round2_nonneg.
    + intros Hneg%float_ltb_leb.
      destruct (float_leb_not_nan _ _ Hneg) as [Hnum _].
      rewrite (fillna_number 0 _ Hnum). by apply round2_nonpos.
Qed.

(** ** The sample sorts *)

Lemma insert_desc_perm (x : agg_row) (l : list agg_row) :
  insert_desc x l ≡ₚ x :: l.
Proof.
  induction l as [|y l IH]; simpl; [done|].
  destruct (PrimFloat.ltb _ _); [|done].
  rewrite IH. apply Permutation_swap.
Qed.

Lemma sort_desc_stable_perm (l : list agg_row) : sort_desc_stable l ≡ₚ l.
Proof.
  induction l as [|x l IH]; simpl; [done|].
  by rewrite insert_desc_perm, IH.
Qed.

Lemma insert_desc_HdRel (y x : agg_row) (l : list agg_row) :
  not_below y x -> HdRel not_below y l -> HdRel not_below y (insert_desc x l).
Proof.
  intros Hyx Hl. destruct l as [|z l]; simpl; [by constructor|].
  apply HdRel_inv in Hl.
  destruct (PrimFloat.ltb _ _); by constructor.
Qed.

Lemma insert_desc_sorted (x : agg_row) (l : list agg_row) :
  Sorted not_below l -> Sorted not_below (insert_desc x l).
Proof.
  induction 1 as [|y l Hl IH Hy]; simpl; [by repeat constructor|].
  destruct (PrimFloat.ltb (Total_Hours_Worked x) (Total_Hours_Worked y)) eqn:Hxy.
  - constructor; [done|]. apply insert_desc_HdRel; [|done].
    unfold not_below. by apply float_leb_not_ltb, float_ltb_leb.
  - constructor; [by constructor|]. by constructor.
Qed.

Lemma sort_desc_stable_sorted (l : list agg_row) :
  Sorted not_below (sort_desc_stable l).
Proof.
  induction l as [|x l IH]; simpl; [constructor|]. by apply insert_desc_sorted.
Qed.

Lemma sort_desc_stable_contract : sorts_descending sort_desc_stable.
Proof.
  intros l. split; [apply sort_desc_stable_perm|apply sort_desc_stable_sorted].
Qed.

Lemma sorts_descending_rearranges (srt : list agg_row -> list agg_row) :
  sorts_descending srt -> rearranges srt.
Proof. intros Hs l. by destruct (Hs l). Qed.

(** The merged summary at a roster of two and one aggregated row, sorted
    by the stable sample sort. *)
Lemma summary_left_join_witness :
  length (@summary_sorted sample_pandas true ["A"; "B"]%string [AggRow "B" 2 7.5])
  = 2%nat.
Proof.
  apply (summary_left_join sample_pandas true ["A"; "B"]%string [AggRow "B" 2 7.5]).
  - apply sorts_descending_rearranges, sort_desc_stable_contract.
  - apply NoDup_singleton.
Defined.

(** The amended C5 on the same summary: the row of ["B"] holds its
    aggregated 7.5 hours, rounded, and is not negative. *)
Lemma total_hours_rounded_witness :
  Total_Hours_Worked (AggRow "B" 2 7.5) = round2 (fillna 0 7.5)
  /\ PrimFloat.leb 0 (Total_Hours_Worked (AggRow "B" 2 7.5)) = true.
Proof.
  destruct (total_hours_rounded sample_pandas true ["A"; "B"]%string
              [AggRow "B" 2 7.5] (AggRow "B" 2 7.5)) as (_ & _ & Hpresent).
  - apply sorts_descending_rearranges, sort_desc_stable_contract.
  - apply NoDup_singleton.
  - vm_compute. left.
  - destruct (Hpresent (AggRow "B" 2 7.5)) as (Hround & Hpos & _);
      [left|reflexivity|].
    split; [exact Hround|]. apply Hpos. reflexivity.
Defined.

(** ** Order of the summary (lines 21 and 127-128) *)

Lemma insert_by_key_perm {A : Type} (key : A -> string) (x : A) (l : list A) :
  insert_by_key key x l ≡ₚ x :: l.
Proof.
  induction l as [|y l IH]; simpl; [done|].
  destruct (String.ltb _ _); [|done].
  rewrite IH. apply Permutation_swap.
Qed.

Lemma sorted_perm {A : Type} (key : A -> string) (l : list A) :
  sorted key l ≡ₚ l.
Proof.
  induction l as [|x l IH]; simpl; [done|].
  by rewrite insert_by_key_perm, IH.
Qed.

Lemma MANUAL_TECHS_value :
  MANUAL_TECHS
  = [ "AMITESHWAR_22"; "ANISH"; "EPELI_23"; "GOSAI_25"; "JOE_22";
      "KAPIL_25"; "KAUSHIK_23"; "NAND_22"; "NIKLESH_25"; "NITENDRA_25";
      "NITUN_22"; "PAUL_22"; "RAHUL_24"; "RATHNAYAKA"; "ROHIT"; "ROMAN_01";
      "SAILESH_22"; "SRIJAN"; "SUMIT_22"; "VILIAME" ]%string.
Proof. vm_compute. reflexivity. Qed.

Lemma MANUAL_TECHS_sorted : Sorted upper_le MANUAL_TECHS.
Proof.
  rewrite MANUAL_TECHS_value.
  repeat (constructor; try (vm_compute; reflexivity)).
Qed.

Lemma Sorted_hours_ge (l : list agg_row) :
  Forall (fun r => PrimFloat.is_nan (Total_Hours_Worked r) = false) l ->
  Sorted not_below l -> Sorted hours_ge l.
Proof.
  intros Hnum Hs. induction Hs as [|x l Hl IH Hx]; [constructor|].
  apply Forall_cons in Hnum as [Hx_num Hl_num].
  constructor; [by apply IH|].
  destruct Hx as [|y l' Hxy]; constructor.
  apply Forall_cons in Hl_num as [Hy_num _].
  unfold hours_ge. by apply float_not_ltb_leb.
Qed.

(** ** Ingestion and aggregation (lines 87-119) *)

Section PipelineFacts.

Context {W : Type} {W_eq_dec : EqDecision W}.
Context {parsers : TextParsers} {pandas : Pandas}.

Implicit Types (r : @clean_row W) (df : @dataframe W)
  (f : @uploaded_file W) (st : @loop_state W).

Lemma apply_rows_Ok {A B : Type} (g : A -> result B) (l : list A) (ys : list B) :
  apply_rows g l = Ok ys -> forall x, x ∈ l -> exists y, g x = Ok y /\ y ∈ ys.
Proof.
  revert ys. induction l as [|a l IH]; intros ys Hys x Hx.
  - by apply elem_of_nil in Hx.
  - simpl in Hys. destruct (g a) as [b|e] eqn:Ha; [|done]. simpl in Hys.
    destruct (apply_rows g l) as [bs|e] eqn:Hl; [|done]. simpl in Hys.
    injection Hys as <-.
    apply elem_of_cons in Hx as [->|Hx].
    + exists b. split; [done|left].
    + destruct (IH bs eq_refl x Hx) as (y & Hy & Hin).
      exists y. split; [done|by right].
Qed.

Lemma elem_of_dropna (rs : list (@raw_row W)) (x : @raw_row W) :
  x ∈ dropna rs <->
  x ∈ rs /\ isnull (raw_technician x) = false /\ isnull (raw_duration x) = false.
Proof. unfold dropna. rewrite list_elem_of_filter. tauto. Qed.

(** Each iteration adds to the state what it would add to the empty
    state. *)
Lemma process_file_adds st f :
  process_file st f
  = LoopState (all_data st ++ all_data (process_file (LoopState [] []) f))
              (notices st ++ notices (process_file (LoopState [] []) f)).
Proof.
  destruct st as [frames shown]. unfold process_file. simpl.
  destruct (read_excel f) as [df|e]; simpl; [|by rewrite app_nil_r].
  destruct (missing_cols df); simpl; [|by rewrite app_nil_r].
  destruct (apply_rows clean (dropna (rows df))); simpl; by rewrite app_nil_r.
Qed.

Lemma fold_process_file_adds (l : list (@uploaded_file W)) st :
  fold_left process_file l st
  = LoopState (all_data st ++ all_data (process_files l))
              (notices st ++ notices (process_files l)).
Proof.
  unfold process_files. revert st.
  induction l as [|f l IH]; intros st; simpl.
  - destruct st. by rewrite !app_nil_r.
  - rewrite (IH (process_file st f)), (IH (process_file _ f)).
    rewrite (process_file_adds st f). simpl. by rewrite !app_assoc.
Qed.

Lemma process_files_app (l1 l2 : list (@uploaded_file W)) :
  process_files (l1 ++ l2)
  = LoopState (all_data (process_files l1) ++ all_data (process_files l2))
              (notices (process_files l1) ++ notices (process_files l2)).
Proof.
  unfold process_files at 1. rewrite fold_left_app.
  apply fold_process_file_adds.
Qed.

Lemma process_file_missing st f df :
  read_excel f = Ok df -> missing_cols df <> [] ->
  process_file st f
  = LoopState (all_data st) (notices st ++ [Warning (name f) (missing_cols df)]).
Proof.
  intros Hread Hmiss. unfold process_file. rewrite Hread.
  by destruct (missing_cols df).
Qed.

(** C9: a dataset that lacks any of the three required columns is skipped
    as a whole with a warning that lists exactly the missing columns; it
    adds no rows, and the files before and after it are processed as if it
    were not there. *)
Theorem missing_columns_skip st f df :
  read_excel f = Ok df ->
  (exists c, c ∈ [TECHNICIAN_COL; WORK_ORDER_COL; HOURS_COL] /\ c ∉ columns df) ->
  (forall c, c ∈ missing_cols df <->
             c ∈ [TECHNICIAN_COL; WORK_ORDER_COL; HOURS_COL] /\ c ∉ columns df)
  /\ process_file st f
     = LoopState (all_data st) (notices st ++ [Warning (name f) (missing_cols df)])
  /\ (forall before after,
        all_data (process_files (before ++ f :: after))
        = all_data (process_files (before ++ after))
        /\ notices (process_files (before ++ f :: after))
           = notices (process_files before)
             ++ Warning (name f) (missing_cols df) :: notices (process_files after)).
Proof.
  intros Hread (c & Hreq & Habsent).
  assert (forall c', c' ∈ missing_cols df <->
            c' ∈ [TECHNICIAN_COL; WORK_ORDER_COL; HOURS_COL] /\ c' ∉ columns df)
    as Hlist.
  { intros c'. unfold missing_cols. rewrite list_elem_of_filter. tauto. }
  assert (missing_cols df <> []) as Hmiss.
  { intros Hnil. assert (c ∈ missing_cols df) as Hc by (by apply Hlist).
    rewrite Hnil in Hc. by apply elem_of_nil in Hc. }
  split_and!; [done|by apply process_file_missing|].
  intros before after.
  assert (process_files [f]
          = LoopState [] [Warning (name f) (missing_cols df)]) as Hone.
  { unfold process_files. simpl. by rewrite (process_file_missing _ f df). }
  change (f :: after) with ([f] ++ after).
  rewrite !process_files_app, Hone. by simpl.
Qed.

Lemma filter_concat {A : Type} (P : A -> Prop) `{!forall x, Decision (P x)}
    (ls : list (list A)) :
  filter P (concat ls) = concat (map (filter P) ls).
Proof.
  induction ls as [|l ls IH]; simpl; [done|]. by rewrite filter_app, IH.
Qed.

Lemma grouped_Technician (rows : list (@clean_row W)) :
  map Technician (grouped rows) = sorted id (remove_dups (map technician rows)).
Proof. unfold grouped. rewrite map_map. apply map_id. Qed.

Lemma grouped_keys_NoDup (rows : list (@clean_row W)) :
  NoDup (map Technician (grouped rows)).
Proof.
  rewrite grouped_Technician, sorted_perm. apply NoDup_remove_dups.
Qed.

Lemma elem_of_grouped_keys (rows : list (@clean_row W)) (t : string) :
  t ∈ map Technician (grouped rows) <-> exists r, r ∈ rows /\ technician r = t.
Proof.
  rewrite grouped_Technician, sorted_perm, elem_of_remove_dups, elem_of_map.
  split; intros (r & Hr & Hin); exists r; done.
Qed.

Lemma grouped_row (rows : list (@clean_row W)) (g : agg_row) :
  g ∈ grouped rows ->
  g = AggRow (Technician g)
             (nunique (map work_order (group (Technician g) rows)))
             (series_sum (map hours (group (Technician g) rows))).
Proof. unfold grouped. by intros (t & -> & _)%elem_of_map. Qed.

(** [nunique] counts each value that occurs once, and a missing value not
    at all. *)
Lemma nunique_spec (col : list (option W)) :
  exists ws, NoDup ws /\ (forall w, w ∈ ws <-> Some w ∈ col)
             /\ nunique col = length ws.
Proof.
  exists (remove_dups (omap id col)). split_and!; [apply NoDup_remove_dups| |done].
  intros w. rewrite elem_of_remove_dups, list_elem_of_omap.
  split.
  - intros (x & Hx & Hid). simpl in Hid. by subst x.
  - intros Hw. by exists (Some w).
Qed.

Lemma group_hours_concat (t : string) (frames : list (list (@clean_row W))) :
  map hours (group t (concat frames))
  = concat (map (fun frame => map hours (group t frame)) frames).
Proof.
  unfold group. rewrite filter_concat, concat_map, map_map. done.
Qed.

(** C3: over the rows of all ingested frames, [grouped] has one row per
    technician that occurs; its work-order count is the number of distinct
    work-order identifiers among that technician's rows, however often a
    work order repeats within or across frames, and its hours are the sum
    over every one of that technician's rows, frame after frame, with no
    row left out. *)
Theorem grouped_counts_and_sums (frames : list (list (@clean_row W))) :
  NoDup (map Technician (grouped (concat frames)))
  /\ (forall t, t ∈ map Technician (grouped (concat frames)) <->
                exists r, r ∈ concat frames /\ technician r = t)
  /\ (forall g, g ∈ grouped (concat frames) ->
        (exists ws : list W,
            NoDup ws
            /\ (forall w, w ∈ ws <->
                  exists r, r ∈ concat frames /\ technician r = Technician g
                            /\ work_order r = Some w)
            /\ Work_Orders_Completed g = length ws)
        /\ Total_Hours_Worked g
           = series_sum
               (concat (map (fun frame => map hours (group (Technician g) frame))
                            frames))
        /\ length (concat (map (fun frame => map hours (group (Technician g) frame))
                               frames))
           = length (filter (fun r => technician r = Technician g) (concat frames))).
Proof.
  split_and!; [apply grouped_keys_NoDup|apply elem_of_grouped_keys|].
  intros g Hg. pose proof (grouped_row _ g Hg) as Hrow. split_and!.
  - destruct (nunique_spec (map work_order (group (Technician g) (concat frames))))
      as (ws & Hnd & Hws & Hlen).
    exists ws. split_and!; [done| |by rewrite Hrow].
    intros w. rewrite Hws, elem_of_map. unfold group.
    split.
    + intros (r & Hw & [Ht Hr]%list_elem_of_filter). by exists r.
    + intros (r & Hr & Ht & Hw). exists r. split; [done|].
      by apply list_elem_of_filter.
  - rewrite Hrow at 1. simpl. by rewrite group_hours_concat.
  - rewrite <- group_hours_concat. apply length_map.
Qed.

Lemma group_app (t : string) (l1 l2 : list (@clean_row W)) :
  group t (l1 ++ l2) = group t l1 ++ group t l2.
Proof. apply filter_app. Qed.

Lemma nunique_missing (col1 col2 : list (option W)) :
  nunique (col1 ++ None :: col2) = nunique (col1 ++ col2).
Proof. unfold nunique. by rewrite !omap_app. Qed.

(** C10: a row with a missing work order and with technician and
    duration present is kept by ingestion, because [dropna] looks at the
    technician and the duration only; in the aggregation its hours are
    among those summed for its technician, and the technician's work-order
    count is what it would be without the row. *)
Theorem missing_work_order_rows :
  (forall (rs : list (@raw_row W)) (x : @raw_row W),
     x ∈ dropna rs <->
     x ∈ rs /\ isnull (raw_technician x) = false
     /\ isnull (raw_duration x) = false)
  /\ (forall st f df rs (x : @raw_row W),
        read_excel f = Ok df -> missing_cols df = [] ->
        apply_rows clean (dropna (rows df)) = Ok rs ->
        x ∈ rows df -> raw_work_order x = None ->
        isnull (raw_technician x) = false -> isnull (raw_duration x) = false ->
        process_file st f = LoopState (all_data st ++ [rs]) (notices st)
        /\ exists h, time_to_hours (raw_duration x) = Ok h
             /\ CleanRow (upper (strip (astype_str (raw_technician x)))) None h ∈ rs)
  /\ (forall (l1 l2 : list (@clean_row W)) r g,
        work_order r = None ->
        g ∈ grouped (l1 ++ r :: l2) -> Technician g = technician r ->
        Work_Orders_Completed g
        = nunique (map work_order (group (technician r) (l1 ++ l2)))
        /\ Total_Hours_Worked g
           = series_sum (map hours (group (technician r) l1)
                         ++ hours r :: map hours (group (technician r) l2))).
Proof.
  split_and!.
  - apply elem_of_dropna.
  - intros st f df rs x Hread Hcols Hrs Hx Hwo Htech Hdur. split.
    + unfold process_file. by rewrite Hread, Hcols, Hrs.
    + assert (x ∈ dropna (rows df)) as Hkept by (by apply elem_of_dropna).
      destruct (apply_rows_Ok clean _ rs Hrs x Hkept) as (y & Hy & Hin).
      unfold clean in Hy.
      destruct (time_to_hours (raw_duration x)) as [h|e]; [|done].
      simpl in Hy. injection Hy as <-. exists h. by rewrite <- Hwo.
  - intros l1 l2 r g Hwo Hg Hkey.
    rewrite (grouped_row _ g Hg), Hkey. simpl.
    rewrite !group_app. unfold group at 2 6. rewrite !filter_cons.
    destruct (decide (technician r = technician r)) as [_|?]; [|done].
    rewrite !map_app. simpl. rewrite Hwo, nunique_missing. done.
Qed.

End PipelineFacts.

(** ** The pipeline on concrete uploads *)

Example run_two_sheets :
  @run string _ sample_parsers sample_pandas ["A"; "B"; "C"]%string true
       [jobs_sheet; short_sheet]
  = Report [AggRow "A" 1 13; AggRow "B" 1 5; AggRow "C" 0 0]
           [Warning "short.xlsx" [WORK_ORDER_COL]].
Proof. vm_compute. reflexivity. Qed.

(** The scenario of the specification: roster [A; B] and rows
    (A, WO1, 1h), (A, WO1, 0.5), (B, WO2, 2.0). *)
Example run_scenario :
  @run string _ sample_parsers sample_pandas ["A"; "B"]%string false
       [Upload "week.xlsx"
          (Ok (DataFrame [TECHNICIAN_COL; WORK_ORDER_COL; HOURS_COL]
                 [ RawRow (VStr "A") (Some "WO1"%string) (VTimedelta 3600);
                   RawRow (VStr "A") (Some "WO1"%string) (VFloat 0.5);
                   RawRow (VStr "B") (Some "WO2"%string) (VFloat 2) ]))]
  = Report [AggRow "A" 1 13; AggRow "B" 1 2] [].
Proof. vm_compute. reflexivity. Qed.

(** A sheet that is the only upload and lacks a column leaves no data. *)
Example run_short_sheet_only :
  @run string _ sample_parsers sample_pandas ["A"; "B"]%string true [short_sheet]
  = NoValidData [Warning "short.xlsx" [WORK_ORDER_COL]].
Proof. vm_compute. reflexivity. Qed.

(** An integer cell beyond the double range fails its whole file. *)
Example run_overflowing_cell :
  @process_files string sample_parsers sample_pandas
     [Upload "big.xlsx"
        (Ok (DataFrame [TECHNICIAN_COL; WORK_ORDER_COL; HOURS_COL]
               [ RawRow (VStr "A") (Some "WO1"%string) (VFloat 2);
                 RawRow (VStr "A") (Some "WO2"%string) (VInt (10 ^ 400)) ]))]
  = LoopState [] [Error "big.xlsx" OverflowError].
Proof. vm_compute. reflexivity. Qed.

(** C9 on [short_sheet] between two copies of [jobs_sheet]. *)
Lemma missing_columns_skip_witness :
  @process_file string sample_parsers sample_pandas (LoopState [] []) short_sheet
  = LoopState [] [Warning "short.xlsx" [WORK_ORDER_COL]]
  /\ all_data (@process_files string sample_parsers sample_pandas
                 ([jobs_sheet] ++ short_sheet :: [jobs_sheet]))
     = all_data (@process_files string sample_parsers sample_pandas
                   ([jobs_sheet] ++ [jobs_sheet])).
Proof.
  destruct (@missing_columns_skip string sample_parsers sample_pandas
              (LoopState [] []) short_sheet
              (DataFrame [TECHNICIAN_COL; HOURS_COL]
                         [RawRow (VStr "A") None (VFloat 2)]))
    as (_ & Hskip & Hrest).
  - reflexivity.
  - exists WORK_ORDER_COL. split; [right; left|].
    apply (bool_decide_unpack _). vm_compute. exact I.
  - split; [exact Hskip|]. apply (Hrest [jobs_sheet] [jobs_sheet]).
Defined.

(** C3 on two frames that repeat a work order: one distinct work order
    for [A], and all three of its rows summed. *)
Lemma grouped_counts_and_sums_witness :
  Total_Hours_Worked (AggRow "A" 1 13.5)
  = @series_sum sample_pandas
      (concat (map (fun frame => map hours (group "A" frame))
                   [ [CleanRow "A" (Some "WO1"%string) 1;
                      CleanRow "B" (Some "WO2"%string) 2];
                     [CleanRow "A" (Some "WO1"%string) 12;
                      CleanRow "A" (Some "WO1"%string) 0.5] ])).
Proof.
  destruct (@grouped_counts_and_sums string _ sample_pandas
              [ [CleanRow "A" (Some "WO1"%string) 1;
                 CleanRow "B" (Some "WO2"%string) 2];
                [CleanRow "A" (Some "WO1"%string) 12;
                 CleanRow "A" (Some "WO1"%string) 0.5] ])
    as (_ & _ & Hrows).
  destruct (Hrows (AggRow "A" 1 13.5)) as (_ & Hsum & _).
  - vm_compute. left.
  - exact Hsum.
Defined.

(** C10 on a row of [B] without work order: the count stays 1 and the
    hours are summed. *)
Lemma missing_work_order_rows_witness :
  Work_Orders_Completed (AggRow "B" 1 5) = 1%nat
  /\ Total_Hours_Worked (AggRow "B" 1 5)
     = @series_sum sample_pandas [2; 3]%float.
Proof.
  destruct (@missing_work_order_rows string _ sample_parsers sample_pandas)
    as (_ & _ & Hagg).
  apply (Hagg [CleanRow "B" (Some "WO2"%string) 2] []
              (CleanRow "B" None 3) (AggRow "B" 1 5)).
  - reflexivity.
  - vm_compute. left.
  - reflexivity.
Defined.

(** ** [get_bar_color] *)

Lemma clamp01_idem (p : float) : clamp01 (clamp01 p) = clamp01 p.
Proof.
  unfold clamp01 at 2 3.
  destruct (PrimFloat.ltb p 0) eqn:Hlo; [reflexivity|].
  destruct (PrimFloat.ltb 1 p) eqn:Hhi; [reflexivity|].
  unfold clamp01. by rewrite Hlo, Hhi.
Qed.

Lemma py_max_bounds (a b : float) :
  PrimFloat.is_nan a = false -> PrimFloat.is_nan b = false ->
  PrimFloat.leb a (py_max a b) = true /\ PrimFloat.leb b (py_max a b) = true.
Proof.
  intros Ha Hb. unfold py_max.
  destruct (PrimFloat.ltb a b) eqn:Hab.
  - split; [by apply float_ltb_leb|]. apply float_not_ltb_leb; try done.
    apply float_ltb_irrefl.
  - split; [|by apply float_not_ltb_leb].
    apply float_not_ltb_leb; try done.
    apply float_ltb_irrefl.
Qed.

(** * Further properties of the script *)

(** ** [sorted(..., key=...)] (line 21) *)

Lemma string_ltb_asym (a b : string) :
  String.ltb a b = true -> String.ltb b a = false.
Proof.
  unfold String.ltb. rewrite (String.compare_antisym b a).
  by destruct (String.compare a b).
Qed.

Lemma string_ltb_irrefl (a : string) : String.ltb a a = false.
Proof.
  destruct (String.ltb a a) eqn:Haa; [|done].
  pose proof (string_ltb_asym a a Haa). congruence.
Qed.

Lemma insert_by_key_HdRel {A : Type} (key : A -> string) (y x : A) (l : list A) :
  String.ltb (key x) (key y) = false ->
  HdRel (fun a b => String.ltb (key b) (key a) = false) y l ->
  HdRel (fun a b => String.ltb (key b) (key a) = false) y (insert_by_key key x l).
Proof.
  intros Hyx Hl. destruct l as [|z l]; simpl; [by constructor|].
  apply HdRel_inv in Hl. destruct (String.ltb (key z) (key x)); by constructor.
Qed.

Lemma insert_by_key_sorted {A : Type} (key : A -> string) (x : A) (l : list A) :
  Sorted (fun a b => String.ltb (key b) (key a) = false) l ->
  Sorted (fun a b => String.ltb (key b) (key a) = false) (insert_by_key key x l).
Proof.
  induction 1 as [|y l Hl IH Hy]; simpl; [by repeat constructor|].
  destruct (String.ltb (key y) (key x)) eqn:Hyx.
  - constructor; [done|]. apply insert_by_key_HdRel; [|done].
    by apply string_ltb_asym.
  - constructor; [by constructor|]. by constructor.
Qed.

Lemma insert_by_key_filter {A : Type} (key : A -> string) (k : string)
    (x : A) (l : list A) :
  filter (fun a => key a = k) (insert_by_key key x l)
  = filter (fun a => key a = k) (x :: l).
Proof.
  induction l as [|y l IH]; simpl; [done|].
  destruct (String.ltb (key y) (key x)) eqn:Hyx; [|done].
  rewrite (filter_cons _ y), IH, !filter_cons.
  destruct (decide (key y = k)) as [Hy|Hy], (decide (key x = k)) as [Hx|Hx];
    try done.
  rewrite Hy, Hx, string_ltb_irrefl in Hyx. done.
Qed.

(** X1: Python's [sorted] with a key, on any list: the result holds the
    same elements, no element is followed by one with a smaller key, and
    elements with equal keys keep the order they were listed in. *)
Theorem sorted_stable {A : Type} (key : A -> string) (l : list A) :
  sorted key l ≡ₚ l
  /\ Sorted (fun a b => String.ltb (key b) (key a) = false) (sorted key l)
  /\ (forall k, filter (fun a => key a = k) (sorted key l)
                = filter (fun a => key a = k) l).
Proof.
  split_and!.
  - apply sorted_perm.
  - induction l as [|x l IH]; simpl; [constructor|].
    by apply insert_by_key_sorted.
  - intros k. induction l as [|x l IH]; simpl; [done|].
    by rewrite insert_by_key_filter, !filter_cons, IH.
Qed.

(** ** The technician key (line 105) *)

Lemma upper_ascii_idem (c : ascii) : upper_ascii (upper_ascii c) = upper_ascii c.
Proof. by destruct c as [[] [] [] [] [] [] [] []]. Qed.

Lemma upper_lower_ascii (c : ascii) : upper_ascii (lower_ascii c) = upper_ascii c.
Proof. by destruct c as [[] [] [] [] [] [] [] []]. Qed.

Lemma is_space_upper (c : ascii) : is_space (upper_ascii c) = is_space c.
Proof. by destruct c as [[] [] [] [] [] [] [] []]. Qed.

Lemma is_space_lower (c : ascii) : is_space (lower_ascii c) = is_space c.
Proof. by destruct c as [[] [] [] [] [] [] [] []]. Qed.

Lemma upper_idem (s : string) : upper (upper s) = upper s.
Proof. induction s as [|c s IH]; simpl; [done|]. by rewrite upper_ascii_idem, IH. Qed.

Lemma upper_lower (s : string) : upper (lower s) = upper s.
Proof. induction s as [|c s IH]; simpl; [done|]. by rewrite upper_lower_ascii, IH. Qed.

Lemma lstrip_upper (s : string) : lstrip (upper s) = upper (lstrip s).
Proof.
  induction s as [|c s IH]; simpl; [done|].
  rewrite is_space_upper. by destruct (is_space c).
Qed.

Lemma rstrip_upper (s : string) : rstrip (upper s) = upper (rstrip s).
Proof.
  induction s as [|c s IH]; simpl; [done|].
  rewrite IH, is_space_upper.
  destruct (rstrip s); simpl; [by destruct (is_space c)|done].
Qed.

Lemma lstrip_lower (s : string) : lstrip (lower s) = lower (lstrip s).
Proof.
  induction s as [|c s IH]; simpl; [done|].
  rewrite is_space_lower. by destruct (is_space c).
Qed.

Lemma rstrip_lower (s : string) : rstrip (lower s) = lower (rstrip s).
Proof.
  induction s as [|c s IH]; simpl; [done|].
  rewrite IH, is_space_lower.
  destruct (rstrip s); simpl; [by destruct (is_space c)|done].
Qed.

Lemma lstrip_idem (s : string) : lstrip (lstrip s) = lstrip s.
Proof.
  induction s as [|c s IH]; simpl; [done|].
  destruct (is_space c) eqn:Hc; [done|]. simpl. by rewrite Hc.
Qed.

Lemma rstrip_idem (s : string) : rstrip (rstrip s) = rstrip s.
Proof.
  induction s as [|c s IH]; simpl; [done|].
  destruct (rstrip s) as [|c' r] eqn:Hr.
  - destruct (is_space c) eqn:Hc; simpl; [done|]. by rewrite Hc.
  - cbn [rstrip]. cbn [rstrip] in IH. by rewrite IH.
Qed.

Lemma rstrip_lstrip (s : string) : rstrip (lstrip s) = lstrip (rstrip s).
Proof.
  induction s as [|c s IH]; [done|]. cbn [lstrip rstrip].
  destruct (is_space c) eqn:Hc.
  - rewrite IH. destruct (rstrip s); simpl; [done|]. by rewrite Hc.
  - cbn [rstrip]. destruct (rstrip s); simpl; by rewrite Hc.
Qed.

Lemma strip_idem (s : string) : strip (strip s) = strip s.
Proof.
  unfold strip. by rewrite rstrip_lstrip, rstrip_idem, lstrip_idem.
Qed.

Lemma lstrip_spaces (w s : string) :
  all_space w = true -> lstrip (w ++ s) = lstrip s.
Proof.
  induction w as [|c w IH]; simpl; [done|].
  intros [Hc Hw]%andb_prop. rewrite Hc. by apply IH.
Qed.

Lemma rstrip_all_space (w : string) : all_space w = true -> rstrip w = EmptyString.
Proof.
  induction w as [|c w IH]; simpl; [done|].
  intros [Hc Hw]%andb_prop. by rewrite IH, Hc.
Qed.

Lemma rstrip_spaces (s w : string) :
  all_space w = true -> rstrip (s ++ w) = rstrip s.
Proof.
  intros Hw. induction s as [|c s IH]; simpl; [by apply rstrip_all_space|].
  by rewrite IH.
Qed.

(** X2: the technician key [strip] then [upper] is idempotent, and cells
    that differ only in surrounding white space and in the case of ASCII
    letters get the same key. *)
Theorem technician_key_canonical (s w1 w2 : string) :
  upper (strip (upper (strip s))) = upper (strip s)
  /\ (all_space w1 = true -> all_space w2 = true ->
      upper (strip (w1 ++ lower s ++ w2)) = upper (strip s)).
Proof.
  split.
  - rewrite <- (strip_idem s) at 2. unfold strip.
    by rewrite rstrip_upper, lstrip_upper, upper_idem.
  - intros Hw1 Hw2. unfold strip.
    rewrite <- rstrip_lstrip, lstrip_spaces, rstrip_lstrip by done.
    rewrite rstrip_spaces by done.
    by rewrite rstrip_lower, lstrip_lower, upper_lower.
Qed.

(** X2 on [" a "] and ["A"]. *)
Lemma technician_key_canonical_witness :
  upper (strip (" " ++ lower "A" ++ " ")) = upper (strip "A").
Proof.
  apply (technician_key_canonical "A" " " " "); reflexivity.
Defined.

(** ** Engine choice (lines 92-93) *)

Lemma split_on_no_sep (sep : ascii) (s : string) :
  occurs sep s = false -> split_on sep s = [s].
Proof.
  induction s as [|c s IH]; simpl; [done|].
  intros [Hc Hs]%orb_false_elim. by rewrite (IH Hs), Hc.
Qed.

Lemma split_on_last_piece (sep : ascii) (a b : string) :
  occurs sep b = false ->
  exists p ps, split_on sep (a ++ String sep b) = (p :: ps) ++ [b].
Proof.
  intros Hb. induction a as [|c a (p & ps & IH)]; simpl.
  - rewrite (split_on_no_sep sep b Hb), Ascii.eqb_refl.
    by exists EmptyString, [].
  - rewrite IH. simpl. destruct (Ascii.eqb c sep).
    + by exists EmptyString, (p :: ps).
    + by exists (String c p), ps.
Qed.

(** X3: the reading engine depends only on what follows the last dot of
    the file name, without regard to case: it is xlrd exactly when that
    part is "xls" and openpyxl otherwise; a name without any dot counts as
    its own extension. *)
Theorem engine_by_extension (stem ext : string) :
  occurs "." ext = false ->
  engine (stem ++ "." ++ ext)
  = (if decide (lower ext = "xls") then "xlrd" else "openpyxl")
  /\ engine ext = (if decide (lower ext = "xls") then "xlrd" else "openpyxl").
Proof.
  intros Hext. unfold engine, file_ext. split.
  - change ("." ++ ext)%string with (String "." ext).
    destruct (split_on_last_piece "." stem ext Hext) as (p & ps & ->).
    by rewrite last_last.
  - by rewrite (split_on_no_sep "." ext Hext).
Qed.

(** X3 on an upper-case legacy extension. *)
Lemma engine_by_extension_witness : engine ("March.v2" ++ "." ++ "XLS") = "xlrd".
Proof. apply (engine_by_extension "March.v2" "XLS"). reflexivity. Defined.

(** ** Download name (line 203) *)

Lemma occurs_app (c : ascii) (s t : string) :
  occurs c (s ++ t) = occurs c s || occurs c t.
Proof.
  induction s as [|c' s IH]; simpl; [done|]. by rewrite IH, orb_assoc.
Qed.

Lemma lower_no_space_after_replace (c : ascii) :
  Ascii.eqb (lower_ascii (if Ascii.eqb c " " then "_" else c)) " " = false.
Proof. by destruct c as [[] [] [] [] [] [] [] []]. Qed.

Lemma lower_ascii_idem (c : ascii) : lower_ascii (lower_ascii c) = lower_ascii c.
Proof. by destruct c as [[] [] [] [] [] [] [] []]. Qed.

Lemma lower_idem (s : string) : lower (lower s) = lower s.
Proof. induction s as [|c s IH]; simpl; [done|]. by rewrite lower_ascii_idem, IH. Qed.

Lemma lower_app (s t : string) : lower (s ++ t) = (lower s ++ lower t)%string.
Proof. induction s as [|c s IH]; simpl; [done|]. by rewrite IH. Qed.

(** X4: the name offered for the chart download never contains a space
    or an upper-case ASCII letter, whatever the chart title, and is the
    title's length plus the four characters of ".png". *)
Theorem png_file_name_shape (chart_title : string) :
  occurs " " (png_file_name chart_title) = false
  /\ lower (png_file_name chart_title) = png_file_name chart_title
  /\ String.length (png_file_name chart_title)
     = (String.length chart_title + 4)%nat.
Proof.
  unfold png_file_name. split_and!.
  - rewrite occurs_app, orb_false_r.
    induction chart_title as [|c s IH]; simpl; [done|].
    by rewrite lower_no_space_after_replace, IH.
  - by rewrite lower_app, lower_idem.
  - induction chart_title as [|c s IH]; simpl; [done|]. by rewrite IH.
Qed.

(** ** The upload loop (lines 88-110) *)

Section LoopFacts.

Context {W : Type} {W_eq_dec : EqDecision W}.
Context {parsers : TextParsers} {pandas : Pandas}.

Implicit Types (df : @dataframe W) (f : @uploaded_file W) (st : @loop_state W).

Lemma process_files_cons f (l : list (@uploaded_file W)) :
  process_files (f :: l)
  = LoopState
      (all_data (process_file (LoopState [] []) f) ++ all_data (process_files l))
      (notices (process_file (LoopState [] []) f) ++ notices (process_files l)).
Proof.
  unfold process_files at 1. simpl. apply fold_process_file_adds.
Qed.

Lemma process_file_one f :
  (length (all_data (process_file (LoopState [] []) f))
   + length (notices (process_file (LoopState [] []) f)) = 1)%nat.
Proof.
  unfold process_file. destruct (read_excel f) as [df|e]; simpl; [|done].
  destruct (missing_cols df); simpl; [|done].
  by destruct (apply_rows clean (dropna (rows df))).
Qed.

(** X5: every upload leaves exactly one trace, a collected frame or a
    notice; frames and notices appear in upload order, and what one upload
    leaves does not depend on the others. *)
Theorem one_trace_per_upload (uploaded_files : list (@uploaded_file W)) :
  all_data (process_files uploaded_files)
  = flat_map (fun f => all_data (process_file (LoopState [] []) f)) uploaded_files
  /\ notices (process_files uploaded_files)
     = flat_map (fun f => notices (process_file (LoopState [] []) f)) uploaded_files
  /\ (length (all_data (process_files uploaded_files))
      + length (notices (process_files uploaded_files))
      = length uploaded_files)%nat.
Proof.
  induction uploaded_files as [|f l (IHd & IHn & IHlen)]; [done|].
  rewrite process_files_cons. simpl. rewrite <- IHd, <- IHn.
  split_and!; try done.
  rewrite !length_app. pose proof (process_file_one f). lia.
Qed.

Lemma time_to_hours_raises (t : value) (e : exn) :
  time_to_hours t = Raise e <->
  e = OverflowError
  /\ exists z, t = VInt z /\ PrimFloat.is_infinity (float_of_Z z) = true.
Proof.
  unfold time_to_hours. destruct t as [ |secs|c|c|b|z|f|s]; simpl;
    try (split; [done|by intros (_ & ? & ? & _)]).
  - destruct b; (split; [done|by intros (_ & ? & ? & _)]).
  - unfold float_of_int.
    destruct (PrimFloat.is_infinity (float_of_Z z)) eqn:Hz; simpl.
    + split; [intros [= <-]; eauto|by intros [-> _]].
    + split; [done|]. intros (_ & z' & [= <-] & Hz'). congruence.
  - destruct (PrimFloat.is_nan f); (split; [done|by intros (_ & ? & ? & _)]).
Qed.

Lemma clean_raises (x : @raw_row W) (e : exn) :
  clean x = Raise e <-> time_to_hours (raw_duration x) = Raise e.
Proof.
  unfold clean. destruct (time_to_hours (raw_duration x)); simpl; [done|].
  split; by intros [= ->].
Qed.

Lemma apply_rows_raises {A B : Type} (g : A -> result B) (l : list A) :
  (exists e, apply_rows g l = Raise e) <-> exists x e, x ∈ l /\ g x = Raise e.
Proof.
  induction l as [|a l IH]; simpl.
  - split; [by intros [? ?]|]. intros (x & e & Hx & _). by apply elem_of_nil in Hx.
  - destruct (g a) as [b|e] eqn:Ha; simpl.
    + destruct (apply_rows g l) as [bs|e] eqn:Hl; simpl.
      * split; [by intros [? ?]|]. intros (x & e & Hx & Hg).
        apply elem_of_cons in Hx as [->|Hx]; [congruence|].
        destruct (proj2 IH) as [e' He']; [by exists x, e|done].
      * split; [|eauto]. intros _.
        destruct (proj1 IH) as (x & e' & Hx & Hg); [eauto|].
        exists x, e'. split; [by right|done].
    + split; [|eauto]. intros _. exists a, e. split; [left|done].
Qed.

Lemma apply_rows_Raise {A B : Type} (g : A -> result B) (l : list A) (e : exn) :
  apply_rows g l = Raise e -> exists x, x ∈ l /\ g x = Raise e.
Proof.
  induction l as [|a l IH]; simpl; [done|].
  destruct (g a) as [b|e'] eqn:Ha; simpl.
  - destruct (apply_rows g l) as [bs|e'']; simpl; [done|].
    intros [= ->]. destruct (IH eq_refl) as (x & Hx & Hg).
    exists x. split; [by right|done].
  - intros [= ->]. exists a. split; [left|done].
Qed.

Lemma apply_rows_length {A B : Type} (g : A -> result B) (l : list A) (ys : list B) :
  apply_rows g l = Ok ys -> length ys = length l.
Proof.
  revert ys. induction l as [|a l IH]; intros ys; simpl; [by intros [= <-]|].
  destruct (g a); simpl; [|done].
  destruct (apply_rows g l) as [bs|]; simpl; [|done].
  intros [= <-]. simpl. by rewrite (IH bs).
Qed.

(** X6: a readable sheet with all three columns is lost as a whole, with
    an OverflowError notice and none of its rows collected, exactly when
    one of its rows with a technician holds an integer duration too large
    for a double; otherwise all its rows with technician and duration are
    collected. *)
Theorem overflow_fails_whole_file st f df :
  read_excel f = Ok df -> missing_cols df = [] ->
  (process_file st f
   = LoopState (all_data st) (notices st ++ [Error (name f) OverflowError])
   <-> exists x z, x ∈ rows df /\ isnull (raw_technician x) = false
                   /\ raw_duration x = VInt z
                   /\ PrimFloat.is_infinity (float_of_Z z) = true)
  /\ ((process_file st f
       = LoopState (all_data st) (notices st ++ [Error (name f) OverflowError]))
      \/ exists rs, process_file st f = LoopState (all_data st ++ [rs]) (notices st)
                    /\ length rs = length (dropna (rows df))).
Proof.
  intros Hread Hcols. unfold process_file. rewrite Hread, Hcols.
  destruct (apply_rows clean (dropna (rows df))) as [rs|e] eqn:Hrows.
  - split.
    + split.
      * intros [= _ Hn]. apply (f_equal length) in Hn.
        rewrite length_app in Hn. simpl in Hn. lia.
      * intros (x & z & Hx & Htech & Hdur & Hz). exfalso.
        assert (exists e, apply_rows clean (dropna (rows df)) = Raise e) as [e He].
        { apply apply_rows_raises. exists x, OverflowError. split.
          - apply list_elem_of_filter. by rewrite Hdur.
          - apply clean_raises, time_to_hours_raises. eauto. }
        congruence.
    + right. exists rs. split; [done|]. by apply (apply_rows_length clean).
  - destruct (apply_rows_Raise clean _ e Hrows)
      as (x & [[Htech Hdur] Hx]%list_elem_of_filter & Hclean).
    apply clean_raises, time_to_hours_raises in Hclean as (-> & z & Hz & Hinf).
    split; [|by left]. split; [|done]. intros _. by exists x, z.
Qed.

End LoopFacts.

(** ** Collected rows, aggregation and the report (lines 104-128) *)

Lemma foldr_add_perm (l1 l2 : list nat) :
  l1 ≡ₚ l2 -> foldr Nat.add 0%nat l1 = foldr Nat.add 0%nat l2.
Proof. induction 1; simpl; lia. Qed.

Section ReportFacts.

Context {W : Type} {W_eq_dec : EqDecision W}.
Context {parsers : TextParsers} {pandas : Pandas}.

Implicit Types (df : @dataframe W) (f : @uploaded_file W) (st : @loop_state W).

(** X8: whatever is uploaded, a report lists exactly the roster: one row
    per roster technician, in roster order when the sort flag is unset,
    together with the notices of the loop. *)
Theorem report_lists_roster (roster : list string) (sort_by_hours : bool)
    (uploaded_files : list (@uploaded_file W))
    (table : list agg_row) (shown : list notice) :
  rearranges sort_values ->
  run roster sort_by_hours uploaded_files = Report table shown ->
  map Technician table ≡ₚ roster
  /\ total_technicians table = length roster
  /\ (sort_by_hours = false -> map Technician table = roster)
  /\ shown = notices (process_files uploaded_files).
Proof.
  intros Hperm. unfold run. destruct uploaded_files as [|f l]; [done|].
  destruct (all_data (process_files (f :: l))) as [|frame frames]; [done|].
  intros [= <- <-].
  pose proof (grouped_keys_NoDup (concat (frame :: frames))) as Hnd.
  pose proof (summary_sorted_perm pandas sort_by_hours roster
                (grouped (concat (frame :: frames))) Hperm) as Hp.
  split_and!; try done.
  - by rewrite map_fmap, Hp, <- map_fmap, summary_Technician.
  - unfold total_technicians.
    rewrite Hp, summary_unique by done. apply length_map.
  - intros ->. by apply summary_Technician.
Qed.


Lemma nunique_perm (col1 col2 : list (option W)) :
  col1 ≡ₚ col2 -> nunique col1 = nunique col2.
Proof.
  intros Hp. unfold nunique. apply Permutation_length, NoDup_Permutation.
  - apply NoDup_remove_dups.
  - apply NoDup_remove_dups.
  - intros w. by rewrite !elem_of_remove_dups, Hp.
Qed.

Lemma remove_dups_length_le {A : Type} `{EqDecision A} (l : list A) :
  (length (remove_dups l) <= length l)%nat.
Proof.
  induction l as [|x l IH]; simpl; [done|].
  destruct (decide_rel elem_of x l); simpl; lia.
Qed.

Lemma omap_id_length_le {A : Type} (l : list (option A)) :
  (length (omap id l) <= length l)%nat.
Proof. induction l as [|[x|] l IH]; cbn in *; lia. Qed.

(** X10: the work-order count of a technician does not depend on the
    order in which rows or files arrive; it never exceeds the number of
    the technician's rows, and it is 0 exactly when all of them lack a
    work order. *)
Theorem work_order_count_facts (rows1 rows2 : list (@clean_row W)) :
  rows1 ≡ₚ rows2 ->
  (forall t, t ∈ map Technician (grouped rows1) <-> t ∈ map Technician (grouped rows2))
  /\ (forall g1 g2, g1 ∈ grouped rows1 -> g2 ∈ grouped rows2 ->
        Technician g1 = Technician g2 ->
        Work_Orders_Completed g1 = Work_Orders_Completed g2)
  /\ (forall g, g ∈ grouped rows1 ->
        (Work_Orders_Completed g <= length (group (Technician g) rows1))%nat
        /\ (Work_Orders_Completed g = 0%nat <->
            forall r, r ∈ rows1 -> technician r = Technician g ->
                      work_order r = None)).
Proof.
  intros Hp. split_and!.
  - intros t. rewrite !elem_of_grouped_keys.
    split; intros (r & Hr & Ht); exists r; split; try done.
    + by rewrite <- Hp.
    + by rewrite Hp.
  - intros g1 g2 Hg1 Hg2 Hk.
    rewrite (grouped_row _ g1 Hg1), (grouped_row _ g2 Hg2). simpl.
    rewrite Hk. apply nunique_perm. unfold group.
    rewrite !map_fmap. by rewrite Hp.
  - intros g Hg. rewrite (grouped_row _ g Hg) at 1 3. simpl. split.
    + unfold nunique.
      etrans; [apply remove_dups_length_le|].
      etrans; [apply omap_id_length_le|]. by rewrite length_map.
    + destruct (nunique_spec (map work_order (group (Technician g) rows1)))
        as (ws & Hnd & Hws & ->).
      split.
      * intros Hlen r Hr Ht. destruct (work_order r) as [w|] eqn:Hw; [|done].
        assert (w ∈ ws) as Hin.
        { apply Hws, elem_of_map. exists r. split; [done|].
          by apply list_elem_of_filter. }
        destruct ws; [by apply elem_of_nil in Hin|done].
      * intros Hnone. destruct ws as [|w ws]; [done|]. exfalso.
        assert (Some w ∈ map work_order (group (Technician g) rows1)) as Hin
          by (apply Hws; left).
        apply elem_of_map in Hin as (r & Hw & [Ht Hr]%list_elem_of_filter).
        rewrite (Hnone r Hr Ht) in Hw. done.
Qed.

End ReportFacts.

(** ** The merge and the work-order metric (lines 122-135) *)

Lemma merge_left_outsiders (R R' : list string) (D : list agg_row) :
  (forall t, t ∈ R' -> t ∈ R) ->
  merge_left R' D = merge_left R' (filter (fun g => Technician g ∈ R) D).
Proof.
  induction R' as [|t R' IH]; intros Hsub; [done|].
  unfold merge_left. cbn [flat_map].
  fold (merge_left R' D).
  fold (merge_left R' (filter (fun g => Technician g ∈ R) D)).
  rewrite IH by (intros t' Ht'; apply Hsub; by right).
  rewrite (list_filter_filter_l (fun g => Technician g = t)); [done|].
  intros g ->. apply Hsub. left.
Qed.

(** X11: aggregated rows of technicians outside the roster change nothing
    in the summary: it is the summary of the aggregated rows of roster
    technicians alone. *)
Theorem outsiders_change_nothing (R : list string) (D : list agg_row) :
  summary R D = summary R (filter (fun g => Technician g ∈ R) D).
Proof. unfold summary. by rewrite (merge_left_outsiders R R D). Qed.

Lemma joined_row_cons_count (g : agg_row) (D : list agg_row) (t : string) :
  Work_Orders_Completed (fill_row (joined_row (g :: D) t))
  = if decide (Technician g = t) then Work_Orders_Completed g
    else Work_Orders_Completed (fill_row (joined_row D t)).
Proof.
  unfold joined_row. rewrite filter_cons.
  by destruct (decide (Technician g = t)).
Qed.

Lemma sum_with_one_key (k : string) (a : nat) (c : string -> nat) (R : list string) :
  NoDup R -> c k = 0%nat ->
  foldr Nat.add 0%nat (map (fun t => if decide (k = t) then a else c t) R)
  = ((if decide (k ∈ R) then a else 0) + foldr Nat.add 0%nat (map c R))%nat.
Proof.
  intros Hnd Hk. induction Hnd as [|t R Ht Hnd IH]; simpl.
  - by destruct (decide (k ∈ [])) as [?%elem_of_nil|].
  - rewrite IH. destruct (decide (k = t)) as [<-|Hne].
    + destruct (decide (k ∈ k :: R)) as [_|Hout]; [|by destruct Hout; left].
      destruct (decide (k ∈ R)); [done|]. lia.
    + destruct (decide (k ∈ R)) as [Hin|Hout].
      * destruct (decide (k ∈ t :: R)) as [_|Hout]; [lia|].
        destruct Hout. by right.
      * destruct (decide (k ∈ t :: R)) as [[?|?]%elem_of_cons|_]; [done..|lia].
Qed.

Lemma summary_counts_sum (R : list string) (D : list agg_row) :
  NoDup R -> NoDup (map Technician D) ->
  foldr Nat.add 0%nat
    (map (fun t => Work_Orders_Completed (fill_row (joined_row D t))) R)
  = total_work_orders (filter (fun g => Technician g ∈ R) D).
Proof.
  intros HR. induction D as [|g D IH]; intros HD.
  - unfold total_work_orders. simpl. induction R as [|t R IHR]; [done|].
    simpl. apply NoDup_cons in HR as [_ HR]. by rewrite IHR.
  - simpl in HD. apply NoDup_cons in HD as [Hg HD].
    rewrite (map_ext _ (fun t => if decide (Technician g = t)
                                 then Work_Orders_Completed g
                                 else Work_Orders_Completed
                                        (fill_row (joined_row D t))))
      by apply joined_row_cons_count.
    rewrite (sum_with_one_key (Technician g) _
               (fun t => Work_Orders_Completed (fill_row (joined_row D t))))
      by (try done; by rewrite joined_row_absent).
    rewrite IH by done. rewrite filter_cons. unfold total_work_orders.
    by destruct (decide (Technician g ∈ R)).
Qed.

Lemma total_work_orders_filter_le (P : agg_row -> Prop)
    `{!forall g, Decision (P g)} (D : list agg_row) :
  (total_work_orders (filter P D) <= total_work_orders D)%nat.
Proof.
  unfold total_work_orders. induction D as [|g D IH]; simpl; [done|].
  rewrite filter_cons. destruct (decide (P g)); simpl; lia.
Qed.

(** X12: with a roster free of repetitions, the "Total Work Orders"
    metric is the sum of the work-order counts of the aggregated rows of
    roster technicians: technicians outside the roster add nothing, so
    the metric never exceeds the sum over all aggregated rows. *)
Theorem total_work_orders_of_roster (pandas : Pandas) (sort_by_hours : bool)
    (R : list string) (D : list agg_row) :
  rearranges sort_values -> NoDup R -> NoDup (map Technician D) ->
  total_work_orders (summary_sorted sort_by_hours R D)
  = total_work_orders (filter (fun g => Technician g ∈ R) D)
  /\ (total_work_orders (summary_sorted sort_by_hours R D)
      <= total_work_orders D)%nat.
Proof.
  intros Hperm HR HD.
  assert (total_work_orders (summary_sorted sort_by_hours R D)
          = total_work_orders (filter (fun g => Technician g ∈ R) D)) as Heq.
  { unfold total_work_orders at 1.
    rewrite (foldr_add_perm _ (map Work_Orders_Completed (summary R D))).
    - rewrite summary_unique, map_map by done. by apply summary_counts_sum.
    - rewrite !map_fmap. by rewrite (summary_sorted_perm pandas _ R D Hperm). }
  split; [done|]. rewrite Heq. apply total_work_orders_filter_le.
Qed.

(** ** Hour of day and bar colours (lines 34-35 and 54-63) *)

Lemma seconds_recovered_checked : all_of_day seconds_recovered = true.
Proof. vm_compute. reflexivity. Qed.

(** X13: the hour of day of a timestamp or clock time keeps the reading to
    the second: multiplied by 3600 and rounded it gives back the seconds
    since midnight, so two different readings never get the same hours. *)
Theorem hour_of_day_keeps_seconds (c1 c2 : clock) :
  clock_ok c1 ->
  trunc (rint (hour_of_day c1 * 3600)) = seconds_of_day c1
  /\ (clock_ok c2 -> hour_of_day c1 = hour_of_day c2 -> c1 = c2).
Proof.
  assert (forall c, clock_ok c ->
            trunc (rint (hour_of_day c * 3600)) = seconds_of_day c) as Hback.
  { intros [h m s] (Hh & Hm & Hs). apply Z.eqb_eq.
    exact (all_of_day_spec seconds_recovered h m s
             seconds_recovered_checked Hh Hm Hs). }
  intros Hc1. split; [by apply Hback|]. intros Hc2 Heq.
  pose proof (Hback c1 Hc1) as H1. pose proof (Hback c2 Hc2) as H2.
  rewrite Heq, H2 in H1. unfold seconds_of_day in H1.
  destruct c1 as [h1 m1 s1], c2 as [h2 m2 s2].
  destruct Hc1 as (? & ? & ?), Hc2 as (? & ? & ?). simpl in *.
  assert (h1 = h2) by lia. assert (m1 = m2) by lia. assert (s1 = s2) by lia.
  by subst.
Qed.

(** X13 at 14:30:15 and 14:30:16. *)
Lemma hour_of_day_keeps_seconds_witness :
  trunc (rint (hour_of_day (Clock 14 30 15) * 3600)) = 52215.
Proof.
  apply (hour_of_day_keeps_seconds (Clock 14 30 15) (Clock 14 30 16)).
  unfold clock_ok; simpl; lia.
Defined.

Lemma SFcompare_Eq_finite (x : spec_float) (sc : bool) (mc : positive) (ec : Z) :
  SFcompare x (S754_finite sc mc ec) = Some Eq -> x = S754_finite sc mc ec.
Proof.
  destruct x as [s|s| |s m e]; simpl; try done.
  - by destruct sc.
  - by destruct s.
  - destruct s, sc; try done; destruct (e ?= ec) eqn:He; try done;
      apply Z.compare_eq in He as ->;
      change (PosDef.Pos.compare_cont Eq m mc) with (m ?= mc)%positive;
      destruct (m ?= mc)%positive eqn:Hm; try done;
      by apply Pos.compare_eq in Hm as ->.
Qed.

Lemma float_le_not_lt_eq (x c : float) (sc : bool) (mc : positive) (ec : Z) :
  Prim2SF c = S754_finite sc mc ec ->
  PrimFloat.leb x c = true -> PrimFloat.ltb x c = false -> x = c.
Proof.
  intros Hc. rewrite FloatAxioms.leb_spec, FloatAxioms.ltb_spec, Hc.
  unfold SFleb, SFltb. intros Hle Hlt. apply Prim2SF_inj. rewrite Hc.
  apply SFcompare_Eq_finite.
  by destruct (SFcompare _ _) as [[]|].
Qed.

(** X14: when the largest total of the batch is at most 20 hours, every
    bar that is not red (20 hours or more) is drawn with the first entry
    of the colormap: the scale has no width and the position is 0. *)
Theorem low_maximum_first_entry (cmaps : Colormaps) (hours max_hours : float) :
  PrimFloat.leb max_hours 20 = true -> PrimFloat.ltb hours 20 = false ->
  get_bar_color hours max_hours
  = Mapped (from_list ["orange"; "yellow"; "green"]%string (NInt 0)).
Proof.
  intros Hmax Hh. unfold get_bar_color, py_max. rewrite Hh.
  destruct (PrimFloat.ltb max_hours 20) eqn:Hlt; [reflexivity|].
  by rewrite (float_le_not_lt_eq max_hours 20 _ _ _ Prim2SF_20 Hmax Hlt).
Qed.

(** X14 with the sample colormap: 20 hours against a maximum of 20. *)
Lemma low_maximum_first_entry_witness :
  @get_bar_color gradient_colormaps 20 20 = Mapped (named_color "orange").
Proof.
  apply (low_maximum_first_entry gradient_colormaps 20 20); reflexivity.
Defined.

(** ** The further properties on the sample uploads *)

(** X6 on [big_sheet]: the second row holds 10^400. *)
Lemma overflow_fails_whole_file_witness :
  @process_file string sample_parsers sample_pandas (LoopState [] []) big_sheet
  = LoopState [] [Error "big.xlsx" OverflowError].
Proof.
  destruct (@overflow_fails_whole_file string sample_parsers sample_pandas
              (LoopState [] []) big_sheet big_frame) as [[_ Hback] _].
  - reflexivity.
  - vm_compute. reflexivity.
  - apply Hback.
    exists (RawRow (VStr "A") (Some "WO2"%string) (VInt (10 ^ 400))), (10 ^ 400).
    split_and!; [right; left|reflexivity|reflexivity|vm_compute; reflexivity].
Defined.

(** X8 on [jobs_sheet] and [short_sheet] with a roster of three. *)
Lemma report_lists_roster_witness :
  total_technicians [AggRow "A" 1 13; AggRow "B" 1 5; AggRow "C" 0 0] = 3%nat
  /\ [Warning "short.xlsx" [WORK_ORDER_COL]]
     = notices (@process_files string sample_parsers sample_pandas
                  [jobs_sheet; short_sheet]).
Proof.
  destruct (@report_lists_roster string _ sample_parsers sample_pandas
              ["A"; "B"; "C"]%string true [jobs_sheet; short_sheet]
              [AggRow "A" 1 13; AggRow "B" 1 5; AggRow "C" 0 0]
              [Warning "short.xlsx" [WORK_ORDER_COL]])
    as (_ & Hlen & _ & Hshown).
  - apply sorts_descending_rearranges, sort_desc_stable_contract.
  - vm_compute. reflexivity.
  - split; [exact Hlen|exact Hshown].
Defined.


(** X10 on two rows of [A] with the same work order, in both orders. *)
Lemma work_order_count_facts_witness :
  (Work_Orders_Completed (AggRow "A" 1 3)
   <= length (@group string "A" [ CleanRow "A" (Some "WO1"%string) 1;
                                  CleanRow "A" (Some "WO1"%string) 2 ]))%nat.
Proof.
  destruct (@work_order_count_facts string _ sample_pandas
              [ CleanRow "A" (Some "WO1"%string) 1;
                CleanRow "A" (Some "WO1"%string) 2 ]
              [ CleanRow "A" (Some "WO1"%string) 2;
                CleanRow "A" (Some "WO1"%string) 1 ]) as (_ & _ & Hrow).
  - apply perm_swap.
  - destruct (Hrow (AggRow "A" 1 3)) as [Hle _]; [vm_compute; left|exact Hle].
Defined.

(** X12 with an aggregated row of a technician outside the roster. *)
Lemma total_work_orders_of_roster_witness :
  total_work_orders
    (@summary_sorted sample_pandas true ["A"; "B"]%string
       [AggRow "A" 2 3; AggRow "Z" 5 1; AggRow "B" 1 2])
  = 3%nat.
Proof.
  destruct (total_work_orders_of_roster sample_pandas true ["A"; "B"]%string
              [AggRow "A" 2 3; AggRow "Z" 5 1; AggRow "B" 1 2]) as [Heq _].
  - apply sorts_descending_rearranges, sort_desc_stable_contract.
  - apply (bool_decide_unpack _). vm_compute. exact I.
  - apply (bool_decide_unpack _). vm_compute. exact I.
  - rewrite Heq. vm_compute. reflexivity.
Defined.

(** ** Bar colours through matplotlib's table (lines 54-63) *)

Lemma float_of_lut_size : float_of_Z lut_size = 256%float.
Proof. vm_compute. reflexivity. Qed.

Lemma float_of_lut_last : float_of_Z (lut_size - 1) = 255%float.
Proof. vm_compute. reflexivity. Qed.

Lemma Prim2SF_256 : Prim2SF 256 = S754_finite false 4503599627370496 (-44).
Proof. reflexivity. Qed.

Lemma Prim2SF_1 : Prim2SF 1 = S754_finite false 4503599627370496 (-52).
Proof. reflexivity. Qed.

(** Multiplying a normal double by 256 only moves its exponent. *)
Lemma SFmul_256_normal (s : bool) (m : positive) (e : Z) :
  digits2_pos m = 53%positive -> -1082 <= e ->
  SFmul prec emax (S754_finite s m e) (S754_finite false 4503599627370496 (-44))
  = if e + 8 <=? emax - prec then S754_finite s m (e + 8) else S754_infinity s.
Proof.
  intros Hd He. unfold SFmul. rewrite xorb_false_r.
  replace (m * 4503599627370496)%positive with (Pos.iter xO m 52)
    by (rewrite Pos.mul_comm; reflexivity).
  unfold binary_round_aux, shr_fexp.
  assert (Zdigits2 (Zpos (Pos.iter xO m 52)) = 105) as ->.
  { unfold Zdigits2.
    change (digits2_pos (Pos.iter xO m 52))
      with (Pos.iter Pos.succ (digits2_pos m) 52).
    by rewrite Hd. }
  assert (fexp prec emax (105 + (e + -44)) - (e + -44) = 52) as ->.
  { unfold fexp, emin, prec, emax. lia. }
  unfold shr.
  change (SpecFloat.iter_pos shr_1 52
            (shr_record_of_loc (Zpos (Pos.iter xO m 52)) loc_Exact))
    with (Build_shr_record (Zpos m) false false).
  cbn [shr_m loc_of_shr_record round_nearest_even].
  assert (Zdigits2 (Zpos m) = 53) as -> by (unfold Zdigits2; by rewrite Hd).
  assert (fexp prec emax (53 + (e + -44 + 52)) - (e + -44 + 52) = 0) as ->.
  { unfold fexp, emin, prec, emax. lia. }
  cbn [shr_record_of_loc shr_m].
  by replace (e + -44 + 52) with (e + 8) by lia.
Qed.

(** What validity says of the mantissa and exponent of a finite double. *)
Lemma finite_valid (x : float) (s : bool) (m : positive) (e : Z) :
  Prim2SF x = S754_finite s m e ->
  Zpos (digits2_pos m) <= 53 /\ -1074 <= e <= 971
  /\ (-1074 < e -> digits2_pos m = 53%positive).
Proof.
  intros Hx. pose proof (Prim2SF_valid x) as Hv. rewrite Hx in Hv.
  unfold valid_binary, bounded, canonical_mantissa in Hv.
  apply andb_prop in Hv as [Hc He].
  apply Z.eqb_eq in Hc. apply Z.leb_le in He.
  unfold fexp, emin, prec, emax in *. split_and!; lia.
Qed.

Lemma SFcompare_positive (m1 m2 : positive) (e1 e2 : Z) :
  SFcompare (S754_finite false m1 e1) (S754_finite false m2 e2)
  = Some match e1 ?= e2 with
         | Lt => Lt
         | Gt => Gt
         | Eq => (m1 ?= m2)%positive
         end.
Proof. reflexivity. Qed.

(** A position above 1 is scaled to 256 or more. *)
Lemma scaled_over (p : float) :
  PrimFloat.ltb 1 p = true -> PrimFloat.leb 256 (p * 256) = true.
Proof.
  rewrite FloatAxioms.ltb_spec, FloatAxioms.leb_spec, FloatAxioms.mul_spec.
  rewrite Prim2SF_1, Prim2SF_256. unfold SFltb, SFleb.
  destruct (Prim2SF p) as [s|s| |s m e] eqn:Hp;
    [by destruct s|by destruct s|done|].
  destruct s; [done|]. rewrite SFcompare_positive. intros Hlt.
  destruct (finite_valid p false m e Hp) as (_ & He & Hd).
  change (SF64mul (S754_finite false m e)
            (S754_finite false 4503599627370496 (-44)))
    with (SFmul prec emax (S754_finite false m e)
            (S754_finite false 4503599627370496 (-44))).
  destruct (-52 ?= e) eqn:Hc; [| |done].
  - apply Z.compare_eq in Hc as <-.
    rewrite SFmul_256_normal by (try apply Hd; lia).
    change (-52 + 8 <=? emax - prec) with true. cbv iota.
    rewrite SFcompare_positive. change (-44 ?= -52 + 8) with Eq.
    by destruct (4503599627370496 ?= m)%positive.
  - pose proof (proj1 (Z.compare_lt_iff _ _) Hc) as Hlow.
    rewrite SFmul_256_normal by (try apply Hd; lia).
    destruct (e + 8 <=? emax - prec); [|done].
    rewrite SFcompare_positive.
    by assert ((-44 ?= e + 8) = Lt) as -> by (apply Z.compare_lt_iff; lia).
Qed.

Lemma digits2_pos_bound (m : positive) : Zpos m < 2 ^ Zpos (digits2_pos m).
Proof.
  induction m as [m IH|m IH|]; simpl digits2_pos; [| |done];
    rewrite Pos2Z.inj_succ, Z.pow_succ_r by lia; lia.
Qed.

(** A double from 0 up to, but not reaching, 256 is cut to an index of
    the table. *)
Lemma trunc_in_table (x : float) :
  PrimFloat.is_nan x = false -> PrimFloat.ltb x 0 = false ->
  PrimFloat.leb 256 x = false -> 0 <= trunc x < 256.
Proof.
  intros Hnan%is_nan_Prim2SF.
  rewrite FloatAxioms.ltb_spec, FloatAxioms.leb_spec, Prim2SF_256.
  unfold SFltb, SFleb, trunc.
  destruct (Prim2SF x) as [s|s| |s m e] eqn:Hx; [done|by destruct s|done|].
  destruct s; [done|]. intros _. rewrite SFcompare_positive.
  destruct (finite_valid x false m e Hx) as (Hd & _ & _).
  pose proof (digits2_pos_bound m) as Hm.
  assert (Zpos m < 9007199254740992) as Hm53.
  { eapply Z.lt_le_trans; [exact Hm|].
    change 9007199254740992 with (2 ^ 53). apply Z.pow_le_mono_r; lia. }
  clear Hm Hd Hx Hnan. intros Hcmp.
  assert (e < 0 /\ Zpos m < 2 ^ (- e) * 256) as [He Hlt].
  { destruct (-44 ?= e) eqn:Hc; [| discriminate |].
    - apply Z.compare_eq in Hc as <-.
      destruct (4503599627370496 ?= m)%positive eqn:Hmm; try discriminate.
      apply Pos.compare_gt_iff, Pos2Z.pos_lt_pos in Hmm. clear Hcmp.
      split; [done|].
      by change (2 ^ (- -44) * 256) with 4503599627370496.
    - pose proof (proj1 (Z.compare_gt_iff _ _) Hc) as He. clear Hc Hcmp.
      split; [lia|].
      assert (35184372088832 <= 2 ^ (- e))
        by (change 35184372088832 with (2 ^ 45); apply Z.pow_le_mono_r; lia).
      lia. }
  assert ((e <? 0) = true) as -> by lia.
  rewrite Z.shiftr_div_pow2 by lia.
  assert (0 < 2 ^ (- e)) by (apply Z.pow_pos_nonneg; lia).
  split; [apply Z.div_pos; lia|].
  apply Z.div_lt_upper_bound; lia.
Qed.

Lemma float_mul_256_not_nan (p : float) :
  PrimFloat.is_nan p = false -> PrimFloat.is_nan (p * 256) = false.
Proof.
  intros Hp%is_nan_Prim2SF. apply Prim2SF_not_nan.
  assert (exists s, sf_sign (Prim2SF p) = Some s) as [s Hs]
    by (destruct (Prim2SF p); simpl; eauto; done).
  pose proof (float_mul_sign p 256 s _ _ _ Prim2SF_256 Hs) as Hsign.
  intros Hnan. by rewrite Hnan in Hsign.
Qed.

(** What the colormap call does with a scaled position of negative
    sign: nothing but the first entry is in reach. *)
Lemma negative_scaled (x : float) :
  sf_sign (Prim2SF x) = Some true ->
  PrimFloat.eqb x 256 = false /\ PrimFloat.is_nan x = false
  /\ (PrimFloat.ltb x 0 = true
      \/ (PrimFloat.ltb x 0 = false /\ PrimFloat.leb 256 x = false
          /\ trunc x = 0)).
Proof.
  intros Hs.
  assert (PrimFloat.is_nan x = false) as Hnum.
  { apply Prim2SF_not_nan. intros Hnan. by rewrite Hnan in Hs. }
  rewrite FloatAxioms.eqb_spec, FloatAxioms.ltb_spec, FloatAxioms.leb_spec.
  rewrite Prim2SF_256. unfold trunc.
  destruct (Prim2SF x) as [s|s| |s m e]; cbn [sf_sign] in Hs;
    [| |discriminate|]; injection Hs as ->.
  - split_and!; [reflexivity|done|]. right. split_and!; reflexivity.
  - split_and!; [reflexivity|done|]. left. reflexivity.
  - split_and!; [reflexivity|done|]. left. reflexivity.
Qed.

Lemma call_under (table : Z -> rgba) (p : float) :
  PrimFloat.ltb p 0 = true -> colormap_call table (NFloat p) = table 0.
Proof.
  intros Hp. unfold colormap_call.
  rewrite float_of_lut_size, float_of_lut_last.
  assert (sf_sign (Prim2SF p) = Some true) as Hs.
  { pose proof (float_ltb_leb _ _ Hp) as Hle.
    apply float_nonpos_shape in Hle as [[s Hz]|Hs]; [|done].
    rewrite FloatAxioms.ltb_spec, Hz in Hp. by destruct s. }
  pose proof (float_mul_sign p 256 true _ _ _ Prim2SF_256 Hs) as Hxa.
  destruct (negative_scaled _ Hxa) as (-> & -> & [->|(-> & -> & ->)]); done.
Qed.

Lemma over_not_under (x : float) :
  PrimFloat.leb 256 x = true -> PrimFloat.ltb x 0 = false.
Proof.
  rewrite FloatAxioms.ltb_spec, FloatAxioms.leb_spec, Prim2SF_256.
  unfold SFltb, SFleb.
  destruct (Prim2SF x) as [s|s| |s m e]; try destruct s;
    solve [intros _; reflexivity | intros H; discriminate H].
Qed.

Lemma call_over (table : Z -> rgba) (p : float) :
  PrimFloat.ltb 1 p = true ->
  colormap_call table (NFloat p) = table (lut_size - 1).
Proof.
  intros Hp%scaled_over. unfold colormap_call.
  rewrite float_of_lut_size, float_of_lut_last.
  destruct (PrimFloat.eqb (p * 256) 256); [reflexivity|].
  destruct (float_leb_not_nan _ _ Hp) as [_ ->].
  by rewrite (over_not_under _ Hp), Hp.
Qed.

(** Whatever the position, a number gets one of the 256 entries. *)
Lemma call_in_table (table : Z -> rgba) (p : float) :
  PrimFloat.is_nan p = false ->
  exists k, 0 <= k < lut_size /\ colormap_call table (NFloat p) = table k.
Proof.
  intros Hp%float_mul_256_not_nan. unfold colormap_call.
  rewrite float_of_lut_size, float_of_lut_last.
  destruct (PrimFloat.eqb (p * 256) 256).
  { exists 255. split; [done|reflexivity]. }
  rewrite Hp.
  destruct (PrimFloat.ltb (p * 256) 0) eqn:Hlo; [by exists 0|].
  destruct (PrimFloat.leb 256 (p * 256)) eqn:Hhi; [by exists 255|].
  exists (trunc (p * 256)). split; [|done]. by apply trunc_in_table.
Qed.

(** The colormap's out-of-range colours do the clamping: a position gets
    the colour of the position limited to [0, 1]. *)
Lemma call_clamped (table : Z -> rgba) (p : float) :
  colormap_call table (NFloat p) = colormap_call table (NFloat (clamp01 p)).
Proof.
  unfold clamp01.
  destruct (PrimFloat.ltb p 0) eqn:Hlo; [by rewrite call_under|].
  destruct (PrimFloat.ltb 1 p) eqn:Hhi; [by rewrite call_over|done].
Qed.

Lemma nan_scaled (p : float) :
  PrimFloat.is_nan p = true ->
  PrimFloat.eqb (p * 256) 256 = false /\ PrimFloat.is_nan (p * 256) = true.
Proof.
  intros Hp.
  assert (Prim2SF p = S754_nan) as Hnan.
  { destruct (Prim2SF p) as [s|s| |s m e] eqn:Hx; try done;
      rewrite (Prim2SF_not_nan p) in Hp by (by rewrite Hx); done. }
  assert (Prim2SF (p * 256) = S754_nan) as Hxa
    by (by rewrite FloatAxioms.mul_spec, Hnan).
  split.
  - by rewrite FloatAxioms.eqb_spec, Hxa.
  - unfold PrimFloat.is_nan. by rewrite FloatAxioms.eqb_spec, Hxa.
Qed.

Lemma call_bad (table : Z -> rgba) (p : float) :
  PrimFloat.is_nan p = true -> colormap_call table (NFloat p) = RGBA 0 0 0 0.
Proof.
  intros [Heq Hnan]%nan_scaled. unfold colormap_call.
  by rewrite float_of_lut_size, Heq, Hnan.
Qed.

Lemma entries_on_gradient : forallb entry_on_gradient (seqZ 0 lut_size) = true.
Proof. vm_compute. reflexivity. Qed.

(** C8 (as stated) fails: the colormap is a table of 256 entries, and the
    position is cut to an index before it is looked up.  With 30 hours
    against a maximum of 40 the position is 0.5, where the gradient of the
    specification is exactly yellow; the script gets entry 128, which
    lies past yellow on the way to green and has less red. *)
Lemma midscale_off_yellow :
  @get_bar_color matplotlib_colormaps 30 40 = Mapped (entry 128)
  /\ spec_gradient ((30 - 20) / (py_max 40 20 - 20)) = named_color "yellow"
  /\ PrimFloat.ltb (red (entry 128)) (red (named_color "yellow")) = true.
Proof. split_and!; vm_compute; reflexivity. Qed.

(** C8 (amended): below 20 hours the colour is the fixed red.  From 20
    hours on, with [d = max(max_hours, 20) - 20], the colormap built from
    orange, yellow and green is asked at index 0 when [d <= 0] and at
    position [p = (hours - 20) / d] when [d > 0] (one of the two holds
    whenever the maximum is a number).  The function does not clamp [p];
    the colormap does: it gives the colour of [p] limited to [0, 1].  The
    colour is always one of the 256 entries of the colormap's table when
    [p] is a number (transparent black when it is not), and entry [k] is
    the orange to yellow to green piecewise-linear gradient at [k / 255],
    to within 1e-15 in every channel; the first entry is exactly orange
    and the last exactly green.  19.99 hours are red whatever the maximum,
    and 20 hours with a maximum of 20 are exactly orange. *)
Theorem bar_color_bands (hours max_hours : float) :
  (PrimFloat.ltb hours 20 = true ->
     @get_bar_color matplotlib_colormaps hours max_hours = Hex "#FF0000")
  /\ (PrimFloat.ltb hours 20 = false ->
      PrimFloat.leb (py_max max_hours 20 - 20) 0 = true ->
      @get_bar_color matplotlib_colormaps hours max_hours = Mapped (entry 0))
  /\ (PrimFloat.ltb hours 20 = false ->
      PrimFloat.ltb 0 (py_max max_hours 20 - 20) = true ->
      @get_bar_color matplotlib_colormaps hours max_hours
      = Mapped (colormap_call entry
                  (NFloat (clamp01 ((hours - 20) / (py_max max_hours 20 - 20)))))
      /\ (PrimFloat.is_nan ((hours - 20) / (py_max max_hours 20 - 20)) = false ->
          exists k, 0 <= k < lut_size
                    /\ @get_bar_color matplotlib_colormaps hours max_hours
                       = Mapped (entry k))
      /\ (PrimFloat.is_nan ((hours - 20) / (py_max max_hours 20 - 20)) = true ->
          @get_bar_color matplotlib_colormaps hours max_hours
          = Mapped (RGBA 0 0 0 0)))
  /\ (PrimFloat.is_nan max_hours = false ->
      PrimFloat.leb (py_max max_hours 20 - 20) 0 = true
      \/ PrimFloat.ltb 0 (py_max max_hours 20 - 20) = true)
  /\ (forall k, 0 <= k < lut_size -> entry_on_gradient k = true)
  /\ entry 0 = named_color "orange"
  /\ entry (lut_size - 1) = named_color "green"
  /\ @get_bar_color matplotlib_colormaps 19.99 max_hours = Hex "#FF0000"
  /\ @get_bar_color matplotlib_colormaps 20 20 = Mapped (named_color "orange").
Proof.
  split_and!.
  - unfold get_bar_color. by intros ->.
  - unfold get_bar_color. intros -> Hd%float_leb_not_ltb. by rewrite Hd.
  - unfold get_bar_color. intros -> ->.
    change (@from_list matplotlib_colormaps ["orange"; "yellow"; "green"]%string)
      with (colormap_call entry).
    split_and!.
    + by rewrite <- call_clamped.
    + intros Hp. destruct (call_in_table entry _ Hp) as (k & Hk & ->). eauto.
    + intros Hp. by rewrite call_bad.
  - intros Hmax. destruct (py_max_bounds max_hours 20 Hmax eq_refl) as [_ H20].
    destruct (PrimFloat.ltb 0 (py_max max_hours 20 - 20)) eqn:Hd; [by right|].
    left. apply float_not_ltb_leb; [done| |done].
    apply (float_sub_not_nan _ 20 _ _ _ Prim2SF_20).
    by destruct (float_leb_not_nan _ _ H20).
  - intros k Hk.
    apply (forallb_seqZ _ 0 lut_size); [apply entries_on_gradient|lia].
  - vm_compute. reflexivity.
  - vm_compute. reflexivity.
  - reflexivity.
  - vm_compute. reflexivity.
Qed.

(** The amended C8 at 50 hours against a maximum of 40: the position 1.5
    lies beyond the end of the scale and gets the last entry, green. *)
Lemma bar_color_bands_witness :
  @get_bar_color matplotlib_colormaps 50 40 = Mapped (named_color "green").
Proof.
  destruct (bar_color_bands 50 40) as (_ & _ & Hscale & _).
  destruct Hscale as (Hcolor & _); [reflexivity..|].
  rewrite Hcolor. vm_compute. reflexivity.
Defined.
